(** * The Ursula command console (nucypher/cli/processes.py)

    A shallow embedding of [UrsulaCommandProtocol], the line-oriented
    control console attached to a running Ursula node, and the
    properties of its registry, dispatcher, prompt, history and
    connection hooks.

    Python values are modelled as follows.
    - [str] is a list of Unicode code points ([N]); [bytes] is a list of
      [Byte.byte].
    - The [dict] of commands keeps insertion order, which the help text
      and the invalid-input message rely on: it is an association list.
    - [deque(maxlen=10)] is a list with the eviction of [append] written
      out.
    - Methods run in a state-and-exception monad.  The state holds the
      protocol object, what was written to the transport, what was
      echoed with [click.secho], the trace of handler invocations and
      collaborator calls, and the collaborators' own world. *)

From Stdlib.Strings Require Import String Ascii Byte.
From Stdlib Require Import List NArith ZArith Bool Lia Zify.
Import ListNotations.

Local Open Scope N_scope.
Local Open Scope list_scope.

(** ** Python strings *)

Module PyStr.

Definition pystr := list N.

Definition str (s : String.string) : pystr :=
  map N_of_ascii (String.list_ascii_of_string s).

Definition eqb (a b : pystr) : bool :=
  if list_eq_dec N.eq_dec a b then true else false.

(** [Py_UNICODE_ISSPACE]: the code points that [str.strip] removes. *)
Definition is_space (c : N) : bool :=
  ((9 <=? c) && (c <=? 13)) || ((28 <=? c) && (c <=? 32))
  || (c =? 133) || (c =? 160) || (c =? 5760)
  || ((8192 <=? c) && (c <=? 8202))
  || (c =? 8232) || (c =? 8233) || (c =? 8239) || (c =? 8287)
  || (c =? 12288).

Fixpoint lstrip (s : pystr) : pystr :=
  match s with
  | [] => []
  | c :: r => if is_space c then lstrip r else s
  end.

Definition rstrip (s : pystr) : pystr := rev (lstrip (rev s)).

Definition strip (s : pystr) : pystr := rstrip (lstrip s).

Definition is_ascii (c : N) : bool := c <? 128.

Definition ascii_lower (c : N) : N :=
  if (65 <=? c) && (c <=? 90) then c + 32 else c.

Definition ascii_upper (c : N) : N :=
  if (97 <=? c) && (c <=? 122) then c - 32 else c.

Section Lower.
(** The case mapping of the Unicode character database, which
    [str.lower] applies to a string holding a non-ASCII code point. *)
Variable unicode_lower : pystr -> pystr.

(** [str.lower]: the ASCII fast path, else the Unicode mapping. *)
Definition lower (s : pystr) : pystr :=
  if forallb is_ascii s then map ascii_lower s else unicode_lower s.
End Lower.

(** [sep.join(parts)] *)
Fixpoint join (sep : pystr) (parts : list pystr) : pystr :=
  match parts with
  | [] => []
  | [p] => p
  | p :: r => p ++ sep ++ join sep r
  end.

(** [c in s] for a one-character [c] *)
Definition contains (c : N) (s : pystr) : bool := existsb (N.eqb c) s.

(** [s * n] *)
Definition times (s : pystr) (n : nat) : pystr := concat (repeat s n).

(** [if s:] *)
Definition truthy (s : pystr) : bool :=
  match s with [] => false | _ :: _ => true end.

End PyStr.
Import PyStr.

(** ** UTF-8, the protocol's [encoding] *)

Module Utf8.

Definition bytes := list byte.

Definition is_cont (b : N) : bool := (128 <=? b) && (b <=? 191).

Definition cont (b : N) : N := N.land b 63.

(** [bytes.decode('utf-8')], strict: [None] stands for
    [UnicodeDecodeError]. *)
Fixpoint decode (bs : bytes) : option pystr :=
  match bs with
  | [] => Some []
  | b0 :: r0 =>
    let n0 := Byte.to_N b0 in
    if n0 <? 128 then option_map (cons n0) (decode r0)
    else if (194 <=? n0) && (n0 <=? 223) then
      match r0 with
      | b1 :: r1 =>
        let n1 := Byte.to_N b1 in
        if is_cont n1
        then option_map (cons (N.lor (N.shiftl (N.land n0 31) 6) (cont n1)))
                        (decode r1)
        else None
      | _ => None
      end
    else if (224 <=? n0) && (n0 <=? 239) then
      match r0 with
      | b1 :: b2 :: r2 =>
        let n1 := Byte.to_N b1 in
        let n2 := Byte.to_N b2 in
        if ((if n0 =? 224 then 160 else 128) <=? n1)
           && (n1 <=? (if n0 =? 237 then 159 else 191))
           && is_cont n2
        then option_map
               (cons (N.lor (N.shiftl (N.land n0 15) 12)
                            (N.lor (N.shiftl (cont n1) 6) (cont n2))))
               (decode r2)
        else None
      | _ => None
      end
    else if (240 <=? n0) && (n0 <=? 244) then
      match r0 with
      | b1 :: b2 :: b3 :: r3 =>
        let n1 := Byte.to_N b1 in
        let n2 := Byte.to_N b2 in
        let n3 := Byte.to_N b3 in
        if ((if n0 =? 240 then 144 else 128) <=? n1)
           && (n1 <=? (if n0 =? 244 then 143 else 191))
           && is_cont n2 && is_cont n3
        then option_map
               (cons (N.lor (N.shiftl (N.land n0 7) 18)
                            (N.lor (N.shiftl (cont n1) 12)
                                   (N.lor (N.shiftl (cont n2) 6) (cont n3)))))
               (decode r3)
        else None
      | _ => None
      end
    else None
  end.

Definition byte_of (n : N) : byte :=
  match Byte.of_N (n mod 256) with Some b => b | None => x00 end.

Definition tail6 (c : N) : byte := byte_of (N.lor 128 (N.land c 63)).

Definition encode_cp (c : N) : option bytes :=
  if c <? 128 then Some [byte_of c]
  else if c <? 2048 then
    Some [byte_of (N.lor 192 (N.shiftr c 6)); tail6 c]
  else if (55296 <=? c) && (c <=? 57343) then None
  else if c <? 65536 then
    Some [byte_of (N.lor 224 (N.shiftr c 12)); tail6 (N.shiftr c 6); tail6 c]
  else if c <? 1114112 then
    Some [byte_of (N.lor 240 (N.shiftr c 18)); tail6 (N.shiftr c 12);
          tail6 (N.shiftr c 6); tail6 c]
  else None.

(** [bytes(s, encoding='utf-8')]: [None] stands for
    [UnicodeEncodeError]. *)
Fixpoint encode (s : pystr) : option bytes :=
  match s with
  | [] => Some []
  | c :: r =>
    match encode_cp c, encode r with
    | Some b, Some br => Some (b ++ br)
    | _, _ => None
    end
  end.

End Utf8.
Import Utf8.

(** ** Exceptions, results and the collaborators *)

Inductive exn :=
| KeyError
| AttributeError (msg : pystr)
| UnicodeDecodeError
| UnicodeEncodeError
| OtherError (name : pystr).

Inductive result (A : Type) :=
| Ok (a : A)
| Raise (e : exn).
Arguments Ok {A} a.
Arguments Raise {A} e.

(** The attributes of the attached node that the console reads. *)
Record Ursula := {
  checksum_public_address : pystr;
  nickname : pystr;
  nickname_icon : pystr
}.

(** The cause handed to [connectionLost]; [connectionDone] is its
    default. *)
Inductive failure :=
| connectionDone
| Failure (descr : pystr).

(** The calls that leave the console: the node's control calls, the
    painting functions and the reactor. *)
Inductive ext_call :=
| paint_known_nodes (ursula : Ursula)
| paint_node_status (ursula : Ursula) (start_time : N)
| build_fleet_state_status (ursula : Ursula)
| cycle_teacher_node (ursula : Ursula)
| start_learning_loop (ursula : Ursula)
| stop_learning_loop (ursula : Ursula) (reason : option failure)
| rest_url (ursula : Ursula)
| reactor_stop.

(** The methods of the class that are registered as commands. *)
Inductive method :=
| paintHelp_m
| paintStatus_m
| paintKnownNodes_m
| paintFleetState_m
| cycle_teacher_m
| start_learning_m
| stop_learning_m
| stop_m.

Definition method_eq_dec (a b : method) : {a = b} + {a <> b}.
Proof. decide equality. Defined.

(** A bound method as the registry stores it: the function and its
    [__doc__], which is [None] when the function has no docstring. *)
Record bound_method := {
  im_func : method;
  __doc__ : option pystr
}.

Inductive event :=
| Invoked (m : method)
| Called (c : ext_call).

Definition is_invoked (e : event) : bool :=
  match e with Invoked _ => true | Called _ => false end.

(** One [click.secho(text, fg=..., bold=...)]. *)
Record echo := {
  text : pystr;
  fg : option pystr;
  bold : bool
}.

Definition plain (t : pystr) : echo := {| text := t; fg := None; bold := false |}.

(** ** The docstrings of the class as it is written *)

Definition nl : pystr := [10].
Definition indent : pystr := str "        ".

Definition docstring (body : pystr) : pystr :=
  nl ++ indent ++ body ++ nl ++ indent.

Definition UrsulaCommandProtocol_doc (m : method) : option pystr :=
  Some (docstring
    match m with
    | paintHelp_m => str "Display this help message."
    | paintKnownNodes_m => str "Display a list of all known nucypher peers."
    | paintStatus_m =>
        str "Display the current status of the attached Ursula node."
    | paintFleetState_m =>
        str "Display information about the network-wide fleet state as the attached Ursula node sees it."
    | cycle_teacher_m =>
        str "Manually direct the attached Ursula node to start learning from a different teacher."
    | start_learning_m =>
        str "Manually start the attached Ursula's node learning protocol."
    | stop_learning_m =>
        str "Manually stop the attached Ursula's node learning protocol."
    | stop_m => str "Shutdown the attached running Ursula node."
    end).

(** ** The protocol object *)

Record UrsulaCommandProtocol := {
  ursula : Ursula;
  start_time : N;
  __history : list pystr;
  prompt : bytes;
  __commands : list (pystr * bound_method)
}.

(** [deque(maxlen=n).append(x)]: a full deque drops its oldest entry. *)
Definition deque_append (maxlen : nat) (d : list pystr) (x : pystr) : list pystr :=
  let d' := d ++ [x] in
  if Nat.ltb maxlen (length d') then tl d' else d'.

Definition maxlen : nat := 10.

(** The [commands] property: the registry's keys, in insertion order. *)
Definition commands (self : UrsulaCommandProtocol) : list pystr :=
  map fst (__commands self).

(** [self.__commands[key]] *)
Fixpoint getitem (d : list (pystr * bound_method)) (key : pystr)
  : option bound_method :=
  match d with
  | [] => None
  | (k, v) :: r => if PyStr.eqb k key then Some v else getitem r key
  end.

Definition prompt_text (u : Ursula) : pystr :=
  str "Ursula(" ++ firstn 9 (checksum_public_address u) ++ str ") >>> ".

Definition command_table (cls : method -> option pystr)
  : list (pystr * bound_method) :=
  let bind m := {| im_func := m; __doc__ := cls m |} in
  [ (str "?", bind paintHelp_m);
    (str "help", bind paintHelp_m);
    (str "status", bind paintStatus_m);
    (str "known_nodes", bind paintKnownNodes_m);
    (str "fleet_state", bind paintFleetState_m);
    (str "cycle_teacher", bind cycle_teacher_m);
    (str "start_learning", bind start_learning_m);
    (str "stop_learning", bind stop_learning_m);
    (str "stop", bind stop_m) ].

(** [__init__(self, ursula)].  [cls] gives the docstring of each method
    of the class being instantiated ([UrsulaCommandProtocol_doc] for the
    class as written; a subclass may override a method), [now] is the
    value of [maya.now()]. *)
Definition __init__ (cls : method -> option pystr) (u : Ursula) (now : N)
  : result UrsulaCommandProtocol :=
  match encode (prompt_text u) with
  | None => Raise UnicodeEncodeError
  | Some p =>
    Ok {| ursula := u;
          start_time := now;
          __history := [];
          prompt := p;
          __commands := command_table cls |}
  end.

(** ** The console's methods *)

Section Console.

(** The collaborators (node, painting functions, reactor) have a state
    of their own; a call returns a value, rendered as a string, or
    raises. *)
Variable World : Type.
Variable ext : ext_call -> World -> result pystr * World.

(** The Unicode case mapping used by [str.lower]. *)
Variable unicode_lower : pystr -> pystr.

Record state := {
  self : UrsulaCommandProtocol;
  transport : list bytes;
  console : list echo;
  trace : list event;
  world : World
}.

Definition M (A : Type) : Type := state -> result A * state.

Definition ret {A} (a : A) : M A := fun s => (Ok a, s).

Definition raise {A} (e : exn) : M A := fun s => (Raise e, s).

Definition bind {A B} (m : M A) (k : A -> M B) : M B :=
  fun s =>
    match m s with
    | (Ok a, s') => k a s'
    | (Raise e, s') => (Raise e, s')
    end.

Notation "x <- m ;; k" := (bind m (fun x => k))
  (at level 61, m at next level, right associativity).
Notation "m ;; k" := (bind m (fun _ => k))
  (at level 61, right associativity).

(** [try: body / except <caught>: handler / else: orelse] *)
Definition try_except_else {A B} (body : M A) (caught : exn -> bool)
           (handler : M B) (orelse : M B) : M B :=
  fun s =>
    match body s with
    | (Ok _, s') => orelse s'
    | (Raise e, s') => if caught e then handler s' else (Raise e, s')
    end.

Definition is_KeyError (e : exn) : bool :=
  match e with KeyError => true | _ => false end.

Definition secho (e : echo) : M unit :=
  fun s => (Ok tt, {| self := self s; transport := transport s;
                      console := console s ++ [e];
                      trace := trace s; world := world s |}).

Definition transport_write (b : bytes) : M unit :=
  fun s => (Ok tt, {| self := self s; transport := transport s ++ [b];
                      console := console s;
                      trace := trace s; world := world s |}).

Definition log (e : event) : M unit :=
  fun s => (Ok tt, {| self := self s; transport := transport s;
                      console := console s;
                      trace := trace s ++ [e]; world := world s |}).

Definition call (c : ext_call) : M pystr :=
  fun s =>
    let (r, w) := ext c (world s) in
    (r, {| self := self s; transport := transport s;
           console := console s;
           trace := trace s ++ [Called c]; world := w |}).

Definition history_append (x : pystr) : M unit :=
  fun s =>
    let p := self s in
    (Ok tt, {| self := {| ursula := ursula p; start_time := start_time p;
                          __history := deque_append maxlen (__history p) x;
                          prompt := prompt p;
                          __commands := __commands p |};
               transport := transport s; console := console s;
               trace := trace s; world := world s |}).

Definition get_self : M UrsulaCommandProtocol := fun s => (Ok (self s), s).

Definition missing_docstring : pystr :=
  str "Ursula Command method is missing a docstring, which is required for generating help text.".

Definition help_entry (command doc : pystr) : pystr :=
  command ++ nl ++ times (str "-") (length command) ++ nl ++ lstrip doc.

(** The loop of [paintHelp] over [self.__commands.items()]. *)
Fixpoint paintHelp_items (items : list (pystr * bound_method)) : M unit :=
  match items with
  | [] => ret tt
  | (command, func) :: rest =>
    if negb (contains 63 command) then
      match __doc__ func with
      | Some doc => secho (plain (help_entry command doc)) ;;
                    paintHelp_items rest
      | None => raise (AttributeError missing_docstring)
      end
    else paintHelp_items rest
  end.

Definition help_header : pystr :=
  nl ++ str "Ursula Command Help" ++ nl ++ str "===================" ++ nl.

Definition paintHelp : M unit :=
  secho (plain help_header) ;;
  p <- get_self ;;
  paintHelp_items (__commands p).

Definition paintKnownNodes : M unit :=
  p <- get_self ;;
  call (paint_known_nodes (ursula p)) ;;
  ret tt.

Definition paintStatus : M unit :=
  p <- get_self ;;
  call (paint_node_status (ursula p) (start_time p)) ;;
  ret tt.

Definition paintFleetState : M unit :=
  p <- get_self ;;
  line <- call (build_fleet_state_status (ursula p)) ;;
  secho (plain line).

Definition cycle_teacher : M unit :=
  p <- get_self ;; call (cycle_teacher_node (ursula p)) ;; ret tt.

Definition start_learning : M unit :=
  p <- get_self ;; call (start_learning_loop (ursula p)) ;; ret tt.

Definition stop_learning : M unit :=
  p <- get_self ;; call (stop_learning_loop (ursula p) None) ;; ret tt.

Definition stop : M unit :=
  call reactor_stop ;; ret tt.

Definition body (m : method) : M unit :=
  match m with
  | paintHelp_m => paintHelp
  | paintStatus_m => paintStatus
  | paintKnownNodes_m => paintKnownNodes
  | paintFleetState_m => paintFleetState
  | cycle_teacher_m => cycle_teacher
  | start_learning_m => start_learning
  | stop_learning_m => stop_learning
  | stop_m => stop
  end.

(** Calling a bound method with no arguments. *)
Definition invoke (f : bound_method) : M unit :=
  log (Invoked (im_func f)) ;; body (im_func f).

Definition connectionMade : M unit :=
  p <- get_self ;;
  url <- call (rest_url (ursula p)) ;;
  let message :=
    str "Attached " ++ checksum_public_address (ursula p) ++ str "@" ++ url in
  secho {| text := message; fg := Some (str "green"); bold := false |} ;;
  secho {| text := nickname_icon (ursula p) ++ str " | " ++ nickname (ursula p);
           fg := Some (str "blue"); bold := true |} ;;
  secho (plain (nl ++ str "Type 'help' or '?' for help")) ;;
  transport_write (prompt p).

Definition connectionLost (reason : option failure) : M unit :=
  let reason :=
    match reason with Some r => r | None => connectionDone end in
  p <- get_self ;;
  call (stop_learning_loop (ursula p) (Some reason)) ;;
  ret tt.

Definition invalid_input (names : list pystr) : pystr :=
  str "Invalid input. Options are " ++ join (str ", ") names.

(** [lineReceived(self, line)]: the console REPL. *)
Definition lineReceived (line : bytes) : M unit :=
  match decode line with
  | None => raise UnicodeDecodeError
  | Some raw_line =>
    let line := lower unicode_lower (strip raw_line) in
    p <- get_self ;;
    try_except_else
      (match getitem (__commands p) line with
       | Some f => invoke f
       | None => raise KeyError
       end)
      is_KeyError
      (if truthy line
       then secho (plain (invalid_input (map fst (__commands p))))
       else ret tt)
      (history_append raw_line) ;;
    transport_write (prompt p)
  end.

(** A session: the lines of a connection, handled in arrival order.  A
    line that raises leaves the state as the exception found it; the
    lines after it are still run, which covers a transport that keeps
    the connection as well as one that drops it. *)
Fixpoint session (lines : list bytes) (s : state) : state :=
  match lines with
  | [] => s
  | l :: r => session r (snd (lineReceived l s))
  end.

End Console.

Arguments self {World} s.
Arguments transport {World} s.
Arguments console {World} s.
Arguments trace {World} s.
Arguments world {World} s.
Arguments lineReceived {World} ext unicode_lower line s.
Arguments connectionMade {World} ext s.
Arguments connectionLost {World} ext reason s.
Arguments paintHelp {World} s.
Arguments paintHelp_items {World} items s.
Arguments body {World} ext m s.
Arguments invoke {World} ext f s.
Arguments session {World} ext unicode_lower lines s.

(** The last [n] entries of a list. *)
Definition lastn {A} (n : nat) (l : list A) : list A :=
  skipn (length l - n) l.

(** The nine tokens, in registration order. *)
Definition command_names : list pystr :=
  [ str "?"; str "help"; str "status"; str "known_nodes"; str "fleet_state";
    str "cycle_teacher"; str "start_learning"; str "stop_learning";
    str "stop" ].

(** [v] spells [tok] with each letter in either case. *)
Definition letter_case_variant (v tok : pystr) : Prop :=
  Forall2 (fun c' c => c' = c \/ c' = ascii_upper c) v tok.

(** The characters the command names are made of: lower-case letters,
    the underscore and the question mark. *)
Definition token_char (c : N) : bool :=
  ((97 <=? c) && (c <=? 122)) || (c =? 95) || (c =? 63).

(** A handler leaves the protocol object and the transport alone; it
    echoes text and calls collaborators, and invokes no handler. *)
Definition handler_frame {World} (s s' : state World) : Prop :=
  self s' = self s /\
  transport s' = transport s /\
  (exists es, console s' = console s ++ es) /\
  (exists evs, trace s' = trace s ++ evs /\
               filter is_invoked evs = []).

(** What the [except KeyError] branch of [lineReceived] echoes for the
    lookup key [k]. *)
Definition complaint (p : UrsulaCommandProtocol) (k : pystr) : list echo :=
  if truthy k then [plain (invalid_input (commands p))] else [].

(** The lines of a session that the dispatcher accepts: the lookup hits
    and the handler returns. *)
Definition accepted_line {World} ext unicode_lower
           (line : bytes) (s : state World) : option pystr :=
  match decode line with
  | None => None
  | Some raw_line =>
    match getitem (__commands (self s))
                  (lower unicode_lower (strip raw_line)) with
    | None => None
    | Some f =>
      match fst (invoke ext f s) with
      | Ok _ => Some raw_line
      | Raise _ => None
      end
    end
  end.

Fixpoint accepted {World} ext unicode_lower
         (lines : list bytes) (s : state World) : list pystr :=
  match lines with
  | [] => []
  | l :: r =>
    let rest := accepted ext unicode_lower r
                         (snd (lineReceived ext unicode_lower l s)) in
    match accepted_line ext unicode_lower l s with
    | Some raw_line => raw_line :: rest
    | None => rest
    end
  end.

(** The one collaborator call behind a command; the two painters that
    echo text themselves ([paintHelp], [paintFleetState]) have none. *)
Definition control_call (p : UrsulaCommandProtocol) (m : method)
  : option ext_call :=
  match m with
  | paintKnownNodes_m => Some (paint_known_nodes (ursula p))
  | paintStatus_m => Some (paint_node_status (ursula p) (start_time p))
  | cycle_teacher_m => Some (cycle_teacher_node (ursula p))
  | start_learning_m => Some (start_learning_loop (ursula p))
  | stop_learning_m => Some (stop_learning_loop (ursula p) None)
  | stop_m => Some reactor_stop
  | paintHelp_m | paintFleetState_m => None
  end.

(** The outcome of a handler that returns what its collaborator
    returns. *)
Definition forwarded (r : result pystr) : result unit :=
  match r with
  | Ok _ => Ok tt
  | Raise e => Raise e
  end.

(** Unicode scalar values: the code points UTF-8 encodes. *)
Definition is_scalar (c : N) : bool :=
  (c <? 55296) || ((57343 <? c) && (c <? 1114112)).

(** A registry entry that [paintHelp] lists: its name holds no "?". *)
Definition listed (kf : pystr * bound_method) : bool :=
  negb (contains 63 (fst kf)).

Definition documented (kf : pystr * bound_method) : bool :=
  match __doc__ (snd kf) with
  | Some _ => true
  | None => false
  end.

(** The help text of a documented entry. *)
Definition entry_of (kf : pystr * bound_method) : echo :=
  plain (help_entry (fst kf)
           match __doc__ (snd kf) with
           | Some doc => doc
           | None => []
           end).

(** How many lines of a session [lineReceived] returns from. *)
Fixpoint completed {World} ext unicode_lower
         (lines : list bytes) (s : state World) : nat :=
  match lines with
  | [] => 0%nat
  | l :: r =>
    let rest := completed ext unicode_lower r
                          (snd (lineReceived ext unicode_lower l s)) in
    match fst (lineReceived ext unicode_lower l s) with
    | Ok _ => S rest
    | Raise _ => rest
    end
  end.

(** A raw line whose key is a registered name. *)
Definition names_a_command unicode_lower (raw_line : pystr) : Prop :=
  In (lower unicode_lower (strip raw_line)) command_names.

(** The state after echoing [es] and nothing else. *)
Definition echoed {World} (s : state World) (es : list echo) : state World :=
  {| self := self s; transport := transport s;
     console := console s ++ es;
     trace := trace s; world := world s |}.

(** The state after the collaborator call [c] left the world as [w]. *)
Definition called {World} (s : state World) (c : ext_call) (w : World)
  : state World :=
  {| self := self s; transport := transport s; console := console s;
     trace := trace s ++ [Called c]; world := w |}.


(** ** A concrete node and session, for examples *)

Module Fixture.

Definition utf8 (s : pystr) : bytes :=
  match encode s with Some b => b | None => [] end.

Definition node : Ursula :=
  {| checksum_public_address :=
       str "0x5aAeb6053F3E94C9b9A09f33669435E7Ef1BeAed";
     nickname := str "Ivory Falcon";
     nickname_icon := str "[IF]" |}.

Definition proto (cls : method -> option pystr) : UrsulaCommandProtocol :=
  {| ursula := node;
     start_time := 1546300800;
     __history := [];
     prompt := utf8 (str "Ursula(0x5aAeb60) >>> ");
     __commands := command_table cls |}.

Definition fresh (cls : method -> option pystr) : state unit :=
  {| self := proto cls; transport := []; console := []; trace := [];
     world := tt |}.

(** Collaborators that always return. *)
Definition quiet (c : ext_call) (w : unit) : result pystr * unit :=
  (Ok (str "ok"), w).

(** A node whose teacher cycling fails with the given exception. *)
Definition broken (e : exn) (c : ext_call) (w : unit)
  : result pystr * unit :=
  match c with
  | cycle_teacher_node _ => (Raise e, w)
  | _ => (Ok (str "ok"), w)
  end.

(** A subclass whose [stop] has no docstring. *)
Definition undocumented_stop (m : method) : option pystr :=
  match m with
  | stop_m => None
  | _ => UrsulaCommandProtocol_doc m
  end.

Definition no_unicode (s : pystr) : pystr := s.

(** The docstring text of each method of the class as written. *)
Definition doc_text (m : method) : pystr :=
  match UrsulaCommandProtocol_doc m with
  | Some doc => doc
  | None => []
  end.

(** Twelve registered commands, in assorted spellings. *)
Definition twelve : list pystr :=
  [ str "help"; str "HELP"; str " status"; str "?"; str "known_nodes";
    str "Fleet_State"; str "status "; str "STATUS"; str "help ";
    str " ?"; str "start_learning"; str "stop_learning" ].

End Fixture.

(** ** Facts about strings *)

Module StrFacts.

Lemma eqb_eq (a b : pystr) : PyStr.eqb a b = true <-> a = b.
Proof.
  unfold PyStr.eqb. destruct (list_eq_dec N.eq_dec a b); split; congruence.
Qed.

Ltac bool_to_prop :=
  repeat match goal with
  | H : _ && _ = true |- _ => apply andb_true_iff in H; destruct H
  | H : _ || _ = true |- _ => apply orb_true_iff in H; destruct H
  | H : (_ <=? _) = true |- _ => apply N.leb_le in H
  | H : (_ <? _) = true |- _ => apply N.ltb_lt in H
  | H : (_ =? _) = true |- _ => apply N.eqb_eq in H
  end.

Lemma lstrip_spaces ws s :
  forallb is_space ws = true -> lstrip (ws ++ s) = lstrip s.
Proof.
  induction ws as [|c ws IH]; simpl; intros H; [reflexivity|].
  apply andb_true_iff in H. destruct H as [Hc Hws].
  rewrite Hc. auto.
Qed.

Lemma lstrip_all_spaces ws : forallb is_space ws = true -> lstrip ws = [].
Proof.
  intros H. rewrite <- (app_nil_r ws). rewrite lstrip_spaces by assumption.
  reflexivity.
Qed.

Lemma forallb_rev {A} (f : A -> bool) l :
  forallb f (rev l) = forallb f l.
Proof.
  induction l as [|a l IH]; simpl; [reflexivity|].
  rewrite forallb_app, IH. simpl. rewrite andb_true_r. apply andb_comm.
Qed.

Lemma lstrip_head c s : is_space c = false -> lstrip (c :: s) = c :: s.
Proof. intros H. simpl. rewrite H. reflexivity. Qed.

Lemma strip_all_spaces ws : forallb is_space ws = true -> strip ws = [].
Proof.
  intros H. unfold strip. rewrite lstrip_all_spaces by assumption.
  reflexivity.
Qed.

(** Stripping removes exactly the padding around a core without
    white space. *)
Lemma strip_padded ws1 v ws2 :
  forallb is_space ws1 = true ->
  forallb is_space ws2 = true ->
  forallb (fun c => negb (is_space c)) v = true ->
  strip (ws1 ++ v ++ ws2) = v.
Proof.
  intros H1 H2 Hv. unfold strip. rewrite lstrip_spaces by assumption.
  destruct v as [|c v].
  - simpl. rewrite lstrip_all_spaces by assumption. reflexivity.
  - simpl in Hv. apply andb_true_iff in Hv. destruct Hv as [Hc Hv].
    apply negb_true_iff in Hc.
    change ((c :: v) ++ ws2) with (c :: (v ++ ws2)).
    rewrite lstrip_head by assumption.
    unfold rstrip.
    change (c :: v ++ ws2) with ((c :: v) ++ ws2).
    rewrite rev_app_distr.
    rewrite lstrip_spaces by (rewrite forallb_rev; assumption).
    destruct (rev (c :: v)) as [|d r] eqn:E.
    + apply (f_equal (@rev N)) in E. rewrite rev_involutive in E.
      discriminate E.
    + assert (Hd : is_space d = false).
      { assert (Hin : In d (c :: v)).
        { apply in_rev. rewrite E. left. reflexivity. }
        assert (Hall : forallb (fun c => negb (is_space c)) (c :: v) = true).
        { simpl. rewrite Hc, Hv. reflexivity. }
        rewrite forallb_forall in Hall. specialize (Hall d Hin).
        apply negb_true_iff in Hall. exact Hall. }
      rewrite lstrip_head by assumption.
      rewrite <- E. apply rev_involutive.
Qed.

Lemma token_char_variant c c' :
  token_char c = true ->
  c' = c \/ c' = ascii_upper c ->
  is_ascii c' = true /\ ascii_lower c' = c /\ is_space c' = false.
Proof.
  unfold token_char, is_ascii, ascii_lower, ascii_upper, is_space.
  intros Ht Hc.
  assert (Hr : (97 <= c <= 122) \/ c = 95 \/ c = 63).
  { bool_to_prop; lia. }
  clear Ht.
  assert (Hc' : c' = c \/ (97 <= c <= 122 /\ c' = c - 32)).
  { destruct Hc as [-> | ->]; [left; reflexivity|].
    destruct ((97 <=? c) && (c <=? 122)) eqn:E.
    - right. bool_to_prop. lia.
    - left. reflexivity. }
  clear Hc.
  assert (Hb : (65 <= c' <= 90 /\ c = c' + 32) \/
               ((97 <= c' <= 122 \/ c' = 95 \/ c' = 63) /\ c' = c)) by lia.
  clear Hr Hc'.
  repeat split.
  - apply N.ltb_lt. lia.
  - destruct Hb as [[Hb Hc] | [Hb Hc]].
    + replace ((65 <=? c') && (c' <=? 90)) with true; [lia|].
      symmetry. apply andb_true_iff. split; apply N.leb_le; lia.
    + replace ((65 <=? c') && (c' <=? 90)) with false; [exact Hc|].
      symmetry. apply andb_false_iff.
      destruct (N.leb_spec 65 c'); [right|left; reflexivity].
      apply N.leb_gt. lia.
  - assert (Hn : 63 <= c' <= 122) by lia.
    repeat (apply orb_false_iff; split);
      try (apply N.eqb_neq; lia);
      apply andb_false_iff;
      solve [ left; apply N.leb_gt; lia | right; apply N.leb_gt; lia ].
Qed.

(** A case variant of a token, once lower-cased, is the token; it is
    ASCII and holds no white space. *)
Lemma variant_normalises v tok :
  forallb token_char tok = true ->
  letter_case_variant v tok ->
  forallb is_ascii v = true /\
  map ascii_lower v = tok /\
  forallb (fun c => negb (is_space c)) v = true.
Proof.
  intros Ht Hv. induction Hv as [|c' c v tok Hc Hv IH]; simpl.
  - repeat split.
  - simpl in Ht. apply andb_true_iff in Ht. destruct Ht as [Hc1 Ht].
    destruct (IH Ht) as (Ha & Hm & Hs).
    destruct (token_char_variant c c' Hc1 Hc) as (Ha' & Hl' & Hs').
    rewrite Ha', Ha, Hl', Hm, Hs', Hs. repeat split.
Qed.

Lemma command_names_token_chars tok :
  In tok command_names -> forallb token_char tok = true /\ tok <> [].
Proof.
  unfold command_names. simpl.
  intros H.
  repeat (destruct H as [<- | H]; [split; [reflexivity|discriminate]|]).
  contradiction.
Qed.

End StrFacts.

(** ** Facts about the registry and the history *)

Module Registry.

Lemma getitem_None d key :
  getitem d key = None <-> ~ In key (map fst d).
Proof.
  induction d as [|[k v] d IH]; simpl.
  - split; [intros _ []|reflexivity].
  - destruct (PyStr.eqb k key) eqn:E.
    + apply StrFacts.eqb_eq in E. split; [discriminate|].
      intros H. exfalso. apply H. left. exact E.
    + rewrite IH. split.
      * intros H [Hk|Hin]; [|exact (H Hin)].
        apply StrFacts.eqb_eq in Hk. congruence.
      * intros H Hin. apply H. right. exact Hin.
Qed.

Lemma getitem_In d key f : getitem d key = Some f -> In (key, f) d.
Proof.
  induction d as [|[k v] d IH]; simpl; [discriminate|].
  destruct (PyStr.eqb k key) eqn:E.
  - apply StrFacts.eqb_eq in E. intros [= <-]. left. congruence.
  - intros H. right. exact (IH H).
Qed.

Lemma command_table_names cls :
  map fst (command_table cls) = command_names.
Proof. reflexivity. Qed.

Lemma getitem_registered cls key f :
  getitem (command_table cls) key = Some f ->
  In key command_names /\ __doc__ f = cls (im_func f).
Proof.
  intros H. apply getitem_In in H. split.
  - rewrite <- (command_table_names cls).
    change key with (fst (key, f)). apply in_map. exact H.
  - unfold command_table in H. simpl in H.
    repeat (destruct H as [[= <- <-] | H]; [reflexivity|]).
    contradiction.
Qed.

Lemma registered_getitem cls key :
  In key command_names ->
  exists f, getitem (command_table cls) key = Some f.
Proof.
  intros H. destruct (getitem (command_table cls) key) as [f|] eqn:E.
  - exists f. reflexivity.
  - apply getitem_None in E. rewrite command_table_names in E.
    contradiction.
Qed.

Local Open Scope nat_scope.

Lemma length_lastn {A} n (l : list A) : length (lastn n l) <= n.
Proof. unfold lastn. rewrite length_skipn. lia. Qed.

Lemma lastn_short {A} n (l : list A) : length l <= n -> lastn n l = l.
Proof.
  intros H. unfold lastn. replace (length l - n)%nat with 0%nat by lia.
  reflexivity.
Qed.

Lemma lastn_tl {A} n (l : list A) :
  n < length l -> lastn n (tl l) = lastn n l.
Proof.
  destruct l as [|a l]; simpl; [lia|].
  intros H. unfold lastn. simpl length.
  replace (S (length l) - n)%nat with (S (length l - n)) by lia.
  reflexivity.
Qed.

Lemma lastn_tl_app {A} n (l r : list A) :
  n < length l -> lastn n (tl l ++ r) = lastn n (l ++ r).
Proof.
  destruct l as [|a l]; simpl; [lia|].
  intros H. unfold lastn. simpl length. rewrite length_app.
  replace (S (length l + length r) - n)%nat
    with (S (length l + length r - n)) by lia.
  reflexivity.
Qed.

(** Appending to the deque, then more lines, keeps the same last
    [n] lines as appending to the unbounded list. *)
Lemma lastn_deque_append n d x r :
  lastn n (deque_append n d x ++ r) = lastn n ((d ++ [x]) ++ r).
Proof.
  unfold deque_append. cbv zeta.
  destruct (Nat.ltb n (length (d ++ [x]))) eqn:E; [|reflexivity].
  apply PeanoNat.Nat.ltb_lt in E. apply lastn_tl_app. exact E.
Qed.

Lemma length_deque_append n d x :
  length d <= n -> 0 < n -> length (deque_append n d x) <= n.
Proof.
  intros Hd Hn. unfold deque_append. cbv zeta.
  destruct (Nat.ltb n (length (d ++ [x]))) eqn:E.
  - destruct (d ++ [x]) eqn:Ed; simpl; [lia|].
    assert (length (d ++ [x]) = S (length l)) by (rewrite Ed; reflexivity).
    rewrite length_app in H. simpl in H. lia.
  - apply PeanoNat.Nat.ltb_ge in E. exact E.
Qed.

Lemma deque_append_full n d x :
  length d = n -> 0 < n -> deque_append n d x = tl d ++ [x].
Proof.
  intros Hd Hn. unfold deque_append. cbv zeta.
  replace (Nat.ltb n (length (d ++ [x]))) with true.
  - destruct d; simpl in *; [lia|reflexivity].
  - symmetry. apply PeanoNat.Nat.ltb_lt. rewrite length_app. simpl. lia.
Qed.

Lemma deque_append_room n d x :
  length d < n -> deque_append n d x = d ++ [x].
Proof.
  intros Hd. unfold deque_append. cbv zeta.
  replace (Nat.ltb n (length (d ++ [x]))) with false; [reflexivity|].
  symmetry. apply PeanoNat.Nat.ltb_ge. rewrite length_app. simpl. lia.
Qed.

End Registry.

(** ** What a handler may change *)

Section Handlers.

Variable World : Type.
Variable ext : ext_call -> World -> result pystr * World.

Lemma handler_frame_refl (s : state World) : handler_frame s s.
Proof.
  repeat split; try (exists []; rewrite app_nil_r; auto).
Qed.

Lemma handler_frame_trans (s1 s2 s3 : state World) :
  handler_frame s1 s2 -> handler_frame s2 s3 -> handler_frame s1 s3.
Proof.
  intros (Ha & Hb & [es Hc] & [evs [Hd He]])
         (Ha' & Hb' & [es' Hc'] & [evs' [Hd' He']]).
  repeat split.
  - congruence.
  - congruence.
  - exists (es ++ es'). rewrite Hc', Hc, app_assoc. reflexivity.
  - exists (evs ++ evs'). rewrite Hd', Hd, app_assoc. split; [reflexivity|].
    rewrite filter_app, He, He'. reflexivity.
Qed.

Lemma secho_frame e (s : state World) : handler_frame s (snd (secho World e s)).
Proof.
  repeat split; simpl.
  - exists [e]. reflexivity.
  - exists []. rewrite app_nil_r. auto.
Qed.

Lemma call_frame c s : handler_frame s (snd (call World ext c s)).
Proof.
  unfold call. destruct (ext c (world s)) as [r w]. repeat split; simpl.
  - exists []. rewrite app_nil_r. reflexivity.
  - exists [Called c]. auto.
Qed.

Lemma paintHelp_items_frame items (s : state World) :
  handler_frame s (snd (paintHelp_items items s)).
Proof.
  revert s. induction items as [|[command func] rest IH]; intros s; simpl.
  - apply handler_frame_refl.
  - destruct (negb (contains 63 command)); [|apply IH].
    destruct (__doc__ func) as [doc|].
    + unfold bind. simpl.
      eapply handler_frame_trans; [|apply IH].
      apply (secho_frame (plain (help_entry command doc))).
    + apply handler_frame_refl.
Qed.

Lemma body_frame m s : handler_frame s (snd (body ext m s)).
Proof.
  destruct m; simpl;
    unfold paintHelp, paintStatus, paintKnownNodes, paintFleetState,
           cycle_teacher, start_learning, stop_learning, stop,
           bind, get_self, ret;
    try match goal with
        | |- context [call World ext ?c ?s] =>
          pose proof (call_frame c s) as Hc;
          destruct (call World ext c s) as [[v|e] s1]; simpl in *;
          try exact Hc
        end.
  - eapply handler_frame_trans; [|apply paintHelp_items_frame].
    apply (secho_frame (plain help_header)).
  - eapply handler_frame_trans; [exact Hc|].
    apply (secho_frame (plain v)).
Qed.

(** Invoking a bound method logs the invocation, then runs the body. *)
Lemma invoke_spec f s :
  exists s0,
    self s0 = self s /\ transport s0 = transport s /\
    console s0 = console s /\ world s0 = world s /\
    trace s0 = trace s ++ [Invoked (im_func f)] /\
    invoke ext f s = body ext (im_func f) s0.
Proof.
  exists (snd (log World (Invoked (im_func f)) s)).
  repeat split; reflexivity.
Qed.

Lemma invoke_frame f s r s' :
  invoke ext f s = (r, s') ->
  self s' = self s /\ transport s' = transport s /\
  (exists es, console s' = console s ++ es) /\
  (exists calls, trace s' = trace s ++ Invoked (im_func f) :: calls /\
                 filter is_invoked calls = []).
Proof.
  intros H. destruct (invoke_spec f s) as (s0 & Hs & Ht & Hc & _ & Htr & Hi).
  rewrite Hi in H.
  pose proof (body_frame (im_func f) s0) as Hf. rewrite H in Hf.
  simpl in Hf. destruct Hf as (Ha & Hb & [es He] & [evs [Hd Hn]]).
  repeat split.
  - congruence.
  - congruence.
  - exists es. congruence.
  - exists evs. rewrite Hd, Htr, <- app_assoc. auto.
Qed.

(** The help painter fails exactly when a listed command has no
    docstring. *)
Lemma paintHelp_items_result items (s : state World) :
  fst (paintHelp_items items s) =
  if forallb (fun kf => contains 63 (fst kf) ||
                        match __doc__ (snd kf) with
                        | Some _ => true | None => false end) items
  then Ok tt else Raise (AttributeError missing_docstring).
Proof.
  revert s. induction items as [|[command func] rest IH]; intros s; simpl.
  - reflexivity.
  - destruct (contains 63 command); simpl; [apply IH|].
    destruct (__doc__ func) as [doc|]; simpl; [|reflexivity].
    unfold bind. simpl. apply IH.
Qed.

End Handlers.

(** ** The dispatcher, case by case *)

Section Dispatcher.

Variable World : Type.
Variable ext : ext_call -> World -> result pystr * World.
Variable unicode_lower : pystr -> pystr.

Let key (raw_line : pystr) : pystr := lower unicode_lower (strip raw_line).

Lemma lineReceived_undecodable line (s : state World) :
  decode line = None ->
  lineReceived ext unicode_lower line s = (Raise UnicodeDecodeError, s).
Proof.
  intros H. unfold lineReceived. rewrite H. reflexivity.
Qed.

Lemma lineReceived_miss line raw_line (s : state World) :
  decode line = Some raw_line ->
  getitem (__commands (self s)) (key raw_line) = None ->
  exists s',
    lineReceived ext unicode_lower line s = (Ok tt, s') /\
    self s' = self s /\
    transport s' = transport s ++ [prompt (self s)] /\
    console s' = console s ++ complaint (self s) (key raw_line) /\
    trace s' = trace s /\
    world s' = world s.
Proof.
  intros Hd Hg. unfold lineReceived. rewrite Hd.
  unfold bind, get_self, try_except_else. simpl.
  fold (key raw_line). rewrite Hg. simpl.
  unfold complaint, commands.
  destruct (truthy (key raw_line)); simpl;
    eexists; repeat split; simpl; try reflexivity.
  rewrite app_nil_r. reflexivity.
Qed.

Lemma lineReceived_hit_ok line raw_line f (s s1 : state World) :
  decode line = Some raw_line ->
  getitem (__commands (self s)) (key raw_line) = Some f ->
  invoke ext f s = (Ok tt, s1) ->
  exists s',
    lineReceived ext unicode_lower line s = (Ok tt, s') /\
    __history (self s') =
      deque_append maxlen (__history (self s)) raw_line /\
    prompt (self s') = prompt (self s) /\
    __commands (self s') = __commands (self s) /\
    ursula (self s') = ursula (self s) /\
    start_time (self s') = start_time (self s) /\
    transport s' = transport s ++ [prompt (self s)] /\
    console s' = console s1 /\
    trace s' = trace s1 /\
    world s' = world s1.
Proof.
  intros Hd Hg Hi.
  destruct (invoke_frame World ext f s _ _ Hi) as (Hs & Ht & _ & _).
  unfold lineReceived. rewrite Hd.
  unfold bind, get_self, try_except_else. simpl.
  fold (key raw_line). rewrite Hg, Hi. simpl.
  eexists. repeat split; simpl; try reflexivity; congruence.
Qed.

Lemma lineReceived_hit_KeyError line raw_line f (s s1 : state World) :
  decode line = Some raw_line ->
  getitem (__commands (self s)) (key raw_line) = Some f ->
  invoke ext f s = (Raise KeyError, s1) ->
  exists s',
    lineReceived ext unicode_lower line s = (Ok tt, s') /\
    self s' = self s /\
    transport s' = transport s ++ [prompt (self s)] /\
    console s' = console s1 ++ complaint (self s) (key raw_line) /\
    trace s' = trace s1 /\
    world s' = world s1.
Proof.
  intros Hd Hg Hi.
  destruct (invoke_frame World ext f s _ _ Hi) as (Hs & Ht & _ & _).
  unfold lineReceived. rewrite Hd.
  unfold bind, get_self, try_except_else. simpl.
  fold (key raw_line). rewrite Hg, Hi. simpl.
  unfold complaint, commands.
  destruct (truthy (key raw_line)); simpl;
    eexists; repeat split; simpl; try reflexivity; try congruence.
  rewrite app_nil_r. reflexivity.
Qed.

Lemma lineReceived_hit_raise line raw_line f e (s s1 : state World) :
  decode line = Some raw_line ->
  getitem (__commands (self s)) (key raw_line) = Some f ->
  invoke ext f s = (Raise e, s1) ->
  e <> KeyError ->
  lineReceived ext unicode_lower line s = (Raise e, s1).
Proof.
  intros Hd Hg Hi He.
  unfold lineReceived. rewrite Hd.
  unfold bind, get_self, try_except_else. simpl.
  fold (key raw_line). rewrite Hg, Hi.
  destruct e; simpl; try reflexivity. contradiction.
Qed.

End Dispatcher.

(** ** The outcome of one line, and of a session *)

Section Outcome.

Variable World : Type.
Variable ext : ext_call -> World -> result pystr * World.
Variable unicode_lower : pystr -> pystr.

(** A line either completes, with the prompt as its last write, or
    raises, with nothing written to the transport. *)
Lemma lineReceived_outcome line (s : state World) :
  match lineReceived ext unicode_lower line s with
  | (Ok _, s') =>
      transport s' = transport s ++ [prompt (self s)] /\
      prompt (self s') = prompt (self s) /\
      __commands (self s') = __commands (self s) /\
      exists raw_line,
        decode line = Some raw_line /\
        forall f,
          getitem (__commands (self s))
                  (lower unicode_lower (strip raw_line)) = Some f ->
          fst (invoke ext f s) = Ok tt \/
          fst (invoke ext f s) = Raise KeyError
  | (Raise e, s') =>
      transport s' = transport s /\
      self s' = self s /\
      e <> KeyError /\
      (decode line = None /\ e = UnicodeDecodeError \/
       exists raw_line f,
         decode line = Some raw_line /\
         getitem (__commands (self s))
                 (lower unicode_lower (strip raw_line)) = Some f /\
         fst (invoke ext f s) = Raise e)
  end.
Proof.
  destruct (decode line) as [raw_line|] eqn:Hd.
  - destruct (getitem (__commands (self s))
                      (lower unicode_lower (strip raw_line)))
      as [f|] eqn:Hg.
    + destruct (invoke ext f s) as [[[]|e] s1] eqn:Hi.
      * destruct (lineReceived_hit_ok World ext unicode_lower
                    line raw_line f s s1 Hd Hg Hi)
          as (s' & -> & _ & Hp & Hc & _ & _ & Ht & _).
        repeat split; try assumption.
        exists raw_line. split; [reflexivity|].
        intros f' Hf'. rewrite Hg in Hf'. injection Hf' as <-.
        rewrite Hi. left. reflexivity.
      * destruct (invoke_frame World ext f s _ _ Hi) as (Hs & Ht & _).
        destruct e;
          try (rewrite (lineReceived_hit_raise World ext unicode_lower
                          line raw_line f _ s s1 Hd Hg Hi)
                 by discriminate;
               repeat split; try assumption; try discriminate;
               right; exists raw_line, f; rewrite Hi; auto).
        destruct (lineReceived_hit_KeyError World ext unicode_lower
                    line raw_line f s s1 Hd Hg Hi)
          as (s' & -> & Hs' & Ht' & _).
        repeat split; try assumption; try congruence.
        exists raw_line. split; [reflexivity|].
        intros f' Hf'. rewrite Hg in Hf'. injection Hf' as <-.
        rewrite Hi. right. reflexivity.
    + destruct (lineReceived_miss World ext unicode_lower
                  line raw_line s Hd Hg)
        as (s' & -> & Hs' & Ht' & _).
      repeat split; try assumption; try congruence.
      exists raw_line. split; [reflexivity|].
      intros f' Hf'. rewrite Hg in Hf'. discriminate Hf'.
  - rewrite (lineReceived_undecodable World ext unicode_lower line s Hd).
    repeat split; try discriminate. left. auto.
Qed.

(** One line changes the history only by appending an accepted line. *)
Lemma lineReceived_history line (s : state World) :
  __history (self (snd (lineReceived ext unicode_lower line s))) =
  match accepted_line ext unicode_lower line s with
  | Some raw_line => deque_append maxlen (__history (self s)) raw_line
  | None => __history (self s)
  end.
Proof.
  unfold accepted_line.
  destruct (decode line) as [raw_line|] eqn:Hd.
  - destruct (getitem (__commands (self s))
                      (lower unicode_lower (strip raw_line)))
      as [f|] eqn:Hg.
    + destruct (invoke ext f s) as [[[]|e] s1] eqn:Hi; simpl.
      * destruct (lineReceived_hit_ok World ext unicode_lower
                    line raw_line f s s1 Hd Hg Hi)
          as (s' & -> & Hh & _).
        exact Hh.
      * destruct (invoke_frame World ext f s _ _ Hi) as (Hs & _).
        destruct e;
          try (rewrite (lineReceived_hit_raise World ext unicode_lower
                          line raw_line f _ s s1 Hd Hg Hi)
                 by discriminate;
               simpl; congruence).
        destruct (lineReceived_hit_KeyError World ext unicode_lower
                    line raw_line f s s1 Hd Hg Hi)
          as (s' & -> & Hs' & _).
        simpl. congruence.
    + destruct (lineReceived_miss World ext unicode_lower
                  line raw_line s Hd Hg)
        as (s' & -> & Hs' & _).
      simpl. congruence.
  - rewrite (lineReceived_undecodable World ext unicode_lower line s Hd).
    reflexivity.
Qed.

Lemma session_history lines (s : state World) :
  (length (__history (self s)) <= maxlen)%nat ->
  __history (self (session ext unicode_lower lines s)) =
    lastn maxlen (__history (self s) ++
                  accepted ext unicode_lower lines s).
Proof.
  revert s. induction lines as [|l r IH]; intros s Hlen; simpl.
  - rewrite app_nil_r. symmetry. apply Registry.lastn_short. exact Hlen.
  - pose proof (lineReceived_history l s) as Hh.
    destruct (accepted_line ext unicode_lower l s) as [raw_line|].
    + rewrite IH.
      * rewrite Hh. rewrite Registry.lastn_deque_append.
        rewrite <- app_assoc. reflexivity.
      * rewrite Hh. apply Registry.length_deque_append; [exact Hlen|].
        unfold maxlen. lia.
    + rewrite IH; rewrite Hh; [reflexivity|exact Hlen].
Qed.

End Outcome.

(** ** The claims *)

(** Closes the help-painting goals once method [m] is known to have
    no docstring. *)
Ltac undocumented m E :=
  split; split;
  [ intros _; exists m; exact E
  | intros _; reflexivity
  | discriminate
  | let H := fresh in intros H; exact (False_ind _ (H m E)) ].

Section Claims.

Variable World : Type.
Variable ext : ext_call -> World -> result pystr * World.
Variable unicode_lower : pystr -> pystr.

(** C2, as the code has it: a line that is not valid UTF-8 makes
    [lineReceived] raise [UnicodeDecodeError] to its caller.  Nothing
    is echoed, the history and every other part of the state are
    unchanged, and no prompt is written. *)
Theorem C2_decode_error_propagates line (s : state World) :
  decode line = None ->
  lineReceived ext unicode_lower line s = (Raise UnicodeDecodeError, s).
Proof.
  intros H. apply lineReceived_undecodable. exact H.
Qed.

(** C3, as the code has it: when [lineReceived] returns (the line
    decodes and the handler, if one is found, returns or raises
    [KeyError]) its last write to the transport is the prompt; when it
    raises (the line does not decode, or the handler raises anything
    but [KeyError]) the exception reaches the caller and nothing is
    written to the transport. *)
Theorem C3_prompt_after_each_completed_line line (s : state World) :
  match lineReceived ext unicode_lower line s with
  | (Ok _, s') =>
      transport s' = transport s ++ [prompt (self s)] /\
      exists raw_line,
        decode line = Some raw_line /\
        forall f,
          getitem (__commands (self s))
                  (lower unicode_lower (strip raw_line)) = Some f ->
          fst (invoke ext f s) = Ok tt \/
          fst (invoke ext f s) = Raise KeyError
  | (Raise e, s') =>
      transport s' = transport s /\
      e <> KeyError /\
      (decode line = None /\ e = UnicodeDecodeError \/
       exists raw_line f,
         decode line = Some raw_line /\
         getitem (__commands (self s))
                 (lower unicode_lower (strip raw_line)) = Some f /\
         fst (invoke ext f s) = Raise e)
  end.
Proof.
  pose proof (lineReceived_outcome World ext unicode_lower line s) as H.
  destruct (lineReceived ext unicode_lower line s) as [[[]|e] s'].
  - destruct H as (Ht & _ & _ & Hr). split; assumption.
  - destruct H as (Ht & _ & He & Hr). repeat split; assumption.
Qed.

(** C5, as the code has it: a line whose key (trimmed, lower-cased) is
    non-empty and is no registered name is answered with exactly
    "Invalid input. Options are " followed by the nine names joined by
    ", " (there is no colon), then the prompt; the protocol object,
    and so the history, is unchanged and no handler runs. *)
Theorem C5_unknown_command_message cls line raw_line (s : state World) :
  __commands (self s) = command_table cls ->
  decode line = Some raw_line ->
  lower unicode_lower (strip raw_line) <> [] ->
  ~ In (lower unicode_lower (strip raw_line)) (commands (self s)) ->
  exists s',
    lineReceived ext unicode_lower line s = (Ok tt, s') /\
    console s' = console s ++
      [plain (str "Invalid input. Options are ?, help, status, known_nodes, fleet_state, cycle_teacher, start_learning, stop_learning, stop")] /\
    self s' = self s /\
    transport s' = transport s ++ [prompt (self s)] /\
    trace s' = trace s /\
    world s' = world s.
Proof.
  intros Hc Hd Hne Hnot.
  assert (Hg : getitem (__commands (self s))
                       (lower unicode_lower (strip raw_line)) = None).
  { apply Registry.getitem_None. exact Hnot. }
  destruct (lineReceived_miss World ext unicode_lower line raw_line s Hd Hg)
    as (s' & Hl & Hs & Ht & Hco & Htr & Hw).
  exists s'. repeat split; try assumption.
  rewrite Hco. f_equal. unfold complaint, commands. rewrite Hc.
  destruct (lower unicode_lower (strip raw_line)); [contradiction|].
  reflexivity.
Qed.

(** C7: a line that is empty or all white space is answered with the
    prompt alone: nothing is echoed, no handler runs and the protocol
    object, and so the history, is unchanged. *)
Theorem C7_blank_line_only_reprompts cls line raw_line (s : state World) :
  __commands (self s) = command_table cls ->
  decode line = Some raw_line ->
  forallb is_space raw_line = true ->
  exists s',
    lineReceived ext unicode_lower line s = (Ok tt, s') /\
    console s' = console s /\
    self s' = self s /\
    transport s' = transport s ++ [prompt (self s)] /\
    trace s' = trace s /\
    world s' = world s.
Proof.
  intros Hc Hd Hsp.
  assert (Hk : lower unicode_lower (strip raw_line) = []).
  { rewrite StrFacts.strip_all_spaces by exact Hsp. reflexivity. }
  assert (Hg : getitem (__commands (self s))
                       (lower unicode_lower (strip raw_line)) = None).
  { rewrite Hk, Hc. reflexivity. }
  destruct (lineReceived_miss World ext unicode_lower line raw_line s Hd Hg)
    as (s' & Hl & Hs & Ht & Hco & Htr & Hw).
  exists s'. repeat split; try assumption.
  rewrite Hco, Hk. apply app_nil_r.
Qed.

(** C10: when the handler found for a line raises [KeyError], the
    dispatcher answers as for an unknown command: it echoes the
    invalid-input message with all nine names, does not touch the
    history and writes the prompt, although the handler was invoked. *)
Theorem C10_handler_KeyError_taken_for_unknown
        cls line raw_line f (s s1 : state World) :
  __commands (self s) = command_table cls ->
  decode line = Some raw_line ->
  getitem (__commands (self s))
          (lower unicode_lower (strip raw_line)) = Some f ->
  invoke ext f s = (Raise KeyError, s1) ->
  exists s',
    lineReceived ext unicode_lower line s = (Ok tt, s') /\
    console s' = console s1 ++ [plain (invalid_input command_names)] /\
    __history (self s') = __history (self s) /\
    In (Invoked (im_func f)) (trace s') /\
    transport s' = transport s ++ [prompt (self s)].
Proof.
  intros Hc Hd Hg Hi.
  destruct (lineReceived_hit_KeyError World ext unicode_lower
              line raw_line f s s1 Hd Hg Hi)
    as (s' & Hl & Hs & Ht & Hco & Htr & Hw).
  destruct (invoke_frame World ext f s _ _ Hi)
    as (_ & _ & _ & (calls & Hcalls & _)).
  exists s'. repeat split; try assumption.
  - rewrite Hco. f_equal. unfold complaint, commands. rewrite Hc.
    rewrite Hc in Hg. apply Registry.getitem_registered in Hg.
    destruct Hg as [Hin _].
    apply StrFacts.command_names_token_chars in Hin.
    destruct Hin as [_ Hne].
    destruct (lower unicode_lower (strip raw_line)); [contradiction|].
    reflexivity.
  - rewrite Hs. reflexivity.
  - rewrite Htr, Hcalls. apply in_or_app. right. left. reflexivity.
Qed.

(** C1, as the code has it: building the registry checks no
    description.  [__init__] registers the nine commands whatever the
    docstrings of the methods are; for the class as written each
    command has a non-empty description; a missing docstring is found
    only when help is painted, which then raises [AttributeError]
    (and returns when every method has a docstring). *)
Theorem C1_descriptions_checked_when_help_is_painted
        cls u now p (s : state World) :
  __init__ cls u now = Ok p ->
  self s = p ->
  __commands p = command_table cls /\
  ((forall m, cls m = UrsulaCommandProtocol_doc m) ->
   Forall (fun kf => exists d, __doc__ (snd kf) = Some d /\ lstrip d <> [])
          (__commands p)) /\
  (fst (paintHelp s) = Raise (AttributeError missing_docstring) <->
   exists m, cls m = None) /\
  (fst (paintHelp s) = Ok tt <-> forall m, cls m <> None).
Proof.
  intros Hi Hs.
  assert (Hc : __commands p = command_table cls).
  { unfold __init__ in Hi. destruct (encode (prompt_text u)); [|discriminate].
    injection Hi as <-. reflexivity. }
  split; [exact Hc|]. split.
  - intros Hdoc. rewrite Hc. unfold command_table.
    repeat (apply Forall_cons;
            [cbn [snd __doc__]; rewrite Hdoc; eexists;
             split; [reflexivity|discriminate]|]).
    apply Forall_nil.
  - assert (Hr : fst (paintHelp s) =
                 if forallb (fun kf => contains 63 (fst kf) ||
                               match __doc__ (snd kf) with
                               | Some _ => true | None => false end)
                            (command_table cls)
                 then Ok tt else Raise (AttributeError missing_docstring)).
    { unfold paintHelp, bind, get_self. simpl.
      rewrite paintHelp_items_result. rewrite Hs, Hc. reflexivity. }
    rewrite Hr. clear Hr.
    unfold command_table. cbn [forallb fst snd __doc__ im_func].
    change (contains 63 (str "?")) with true.
    change (contains 63 (str "help")) with false.
    change (contains 63 (str "status")) with false.
    change (contains 63 (str "known_nodes")) with false.
    change (contains 63 (str "fleet_state")) with false.
    change (contains 63 (str "cycle_teacher")) with false.
    change (contains 63 (str "start_learning")) with false.
    change (contains 63 (str "stop_learning")) with false.
    change (contains 63 (str "stop")) with false.
    cbn [orb andb].
    destruct (cls paintHelp_m) eqn:E1; [|undocumented paintHelp_m E1].
    destruct (cls paintStatus_m) eqn:E2; [|undocumented paintStatus_m E2].
    destruct (cls paintKnownNodes_m) eqn:E3;
      [|undocumented paintKnownNodes_m E3].
    destruct (cls paintFleetState_m) eqn:E4;
      [|undocumented paintFleetState_m E4].
    destruct (cls cycle_teacher_m) eqn:E5;
      [|undocumented cycle_teacher_m E5].
    destruct (cls start_learning_m) eqn:E6;
      [|undocumented start_learning_m E6].
    destruct (cls stop_learning_m) eqn:E7;
      [|undocumented stop_learning_m E7].
    destruct (cls stop_m) eqn:E8; [|undocumented stop_m E8].
    split; split.
    + discriminate.
    + intros [m Hm]. destruct m; congruence.
    + intros _ m. destruct m; congruence.
    + reflexivity.
Qed.

(** C4, as the code has it: the prompt is the UTF-8 encoding of
    "Ursula(" followed by the first 9 characters of the node's
    checksum address and ") >>> ".  It is what [connectionMade] writes
    when it returns and what [lineReceived] writes whenever it
    returns, and a line never changes it. *)
Theorem C4_prompt_is_Ursula_short_address cls u now p (s : state World) :
  __init__ cls u now = Ok p ->
  prompt (self s) = prompt p ->
  encode (str "Ursula(" ++ firstn 9 (checksum_public_address u)
                        ++ str ") >>> ") = Some (prompt p) /\
  (forall s', connectionMade ext s = (Ok tt, s') ->
              transport s' = transport s ++ [prompt p]) /\
  (forall line s',
      lineReceived ext unicode_lower line s = (Ok tt, s') ->
      transport s' = transport s ++ [prompt p] /\
      prompt (self s') = prompt p).
Proof.
  intros Hi Hp. split; [|split].
  - unfold __init__ in Hi. fold (prompt_text u).
    destruct (encode (prompt_text u)); [|discriminate].
    injection Hi as <-. reflexivity.
  - intros s'. unfold connectionMade, bind, get_self, call. simpl.
    destruct (ext (rest_url (ursula (self s))) (world s)) as [[url|e] w];
      simpl; [|discriminate].
    intros [= <-]. simpl. rewrite Hp. reflexivity.
  - intros line s' Hl.
    pose proof (lineReceived_outcome World ext unicode_lower line s) as H.
    rewrite Hl in H. destruct H as (Ht & Hq & _).
    rewrite Ht, Hq, Hp. split; reflexivity.
Qed.

(** C6, as the code has it: for a registered name written in any
    letter case and padded with any white space, the dispatcher
    invokes the handler registered under that name, once and with no
    arguments.  When the handler returns, the raw decoded line, as
    received, is appended to the history and the prompt is written;
    when the handler raises, the history is left as it was. *)
Theorem C6_registered_name_invokes_its_handler
        cls tok f v ws1 ws2 line (s : state World) :
  __commands (self s) = command_table cls ->
  getitem (command_table cls) tok = Some f ->
  letter_case_variant v tok ->
  forallb is_space ws1 = true ->
  forallb is_space ws2 = true ->
  decode line = Some (ws1 ++ v ++ ws2) ->
  match lineReceived ext unicode_lower line s with
  | (r, s') =>
    (exists calls,
        trace s' = trace s ++ Invoked (im_func f) :: calls /\
        filter is_invoked calls = []) /\
    match fst (invoke ext f s) with
    | Ok _ =>
        r = Ok tt /\
        __history (self s') =
          deque_append maxlen (__history (self s)) (ws1 ++ v ++ ws2) /\
        transport s' = transport s ++ [prompt (self s)]
    | Raise _ => __history (self s') = __history (self s)
    end
  end.
Proof.
  intros Hc Hg Hv H1 H2 Hd.
  destruct (Registry.getitem_registered cls tok f Hg) as [Hin _].
  destruct (StrFacts.command_names_token_chars tok Hin) as [Htc _].
  destruct (StrFacts.variant_normalises v tok Htc Hv) as (Ha & Hm & Hs).
  assert (Hk : lower unicode_lower (strip (ws1 ++ v ++ ws2)) = tok).
  { rewrite StrFacts.strip_padded by assumption.
    unfold lower. rewrite Ha. exact Hm. }
  assert (Hg' : getitem (__commands (self s))
                  (lower unicode_lower (strip (ws1 ++ v ++ ws2))) = Some f).
  { rewrite Hk, Hc. exact Hg. }
  destruct (invoke ext f s) as [[[]|e] s1] eqn:Hi; simpl.
  - destruct (lineReceived_hit_ok World ext unicode_lower
                line _ f s s1 Hd Hg' Hi)
      as (s' & -> & Hh & _ & _ & _ & _ & Ht & _ & Htr & _).
    destruct (invoke_frame World ext f s _ _ Hi) as (_ & _ & _ & Hcalls).
    rewrite Htr. repeat split; assumption.
  - destruct (invoke_frame World ext f s _ _ Hi) as (Hs1 & _ & _ & Hcalls).
    destruct e;
      try (rewrite (lineReceived_hit_raise World ext unicode_lower
                      line _ f _ s s1 Hd Hg' Hi) by discriminate;
           split; [exact Hcalls|congruence]).
    destruct (lineReceived_hit_KeyError World ext unicode_lower
                line _ f s s1 Hd Hg' Hi)
      as (s' & -> & Hs' & _ & _ & Htr & _).
    rewrite Htr. split; [exact Hcalls|congruence].
Qed.

(** C8: after any sequence of lines the history is the last 10 of the
    accepted raw lines, in arrival order, and never holds more than
    10; an accepted line that finds the history full evicts the
    oldest entry. *)
Theorem C8_history_keeps_last_ten lines (s : state World) :
  (length (__history (self s)) <= maxlen)%nat ->
  let h := __history (self (session ext unicode_lower lines s)) in
  h = lastn 10 (__history (self s) ++ accepted ext unicode_lower lines s) /\
  (length h <= 10)%nat /\
  (forall line raw_line,
      accepted_line ext unicode_lower line s = Some raw_line ->
      length (__history (self s)) = 10%nat ->
      __history (self (snd (lineReceived ext unicode_lower line s))) =
      tl (__history (self s)) ++ [raw_line]).
Proof.
  intros Hlen h. subst h.
  rewrite session_history by exact Hlen. repeat split.
  - apply (Registry.length_lastn maxlen).
  - intros line raw_line Ha Hfull.
    rewrite lineReceived_history, Ha.
    apply Registry.deque_append_full; [exact Hfull|].
    unfold maxlen. lia.
Qed.

(** C9: [connectionLost] makes one collaborator call, the node's
    [stop_learning_loop] with the cause it was given (the default
    [connectionDone] when none is given), and its outcome is the
    outcome of that call: an exception of the node is not caught. *)
Theorem C9_connectionLost_forwards_the_cause reason (s : state World) :
  let c := stop_learning_loop (ursula (self s))
             (Some match reason with
                   | Some r => r
                   | None => connectionDone
                   end) in
  trace (snd (connectionLost ext reason s)) = trace s ++ [Called c] /\
  world (snd (connectionLost ext reason s)) = snd (ext c (world s)) /\
  fst (connectionLost ext reason s) =
    match fst (ext c (world s)) with
    | Ok _ => Ok tt
    | Raise e => Raise e
    end /\
  self (snd (connectionLost ext reason s)) = self s /\
  transport (snd (connectionLost ext reason s)) = transport s /\
  console (snd (connectionLost ext reason s)) = console s.
Proof.
  intros c. subst c. unfold connectionLost, bind, get_self, call. simpl.
  destruct (ext _ (world s)) as [[v|e] w]; simpl; repeat split.
Qed.

End Claims.

(** ** The claims at concrete sessions *)

Lemma C1_witness :
  __init__ Fixture.undocumented_stop Fixture.node 1546300800
    = Ok (Fixture.proto Fixture.undocumented_stop) /\
  __commands (Fixture.proto Fixture.undocumented_stop)
    = command_table Fixture.undocumented_stop /\
  fst (paintHelp (Fixture.fresh Fixture.undocumented_stop))
    = Raise (AttributeError missing_docstring).
Proof.
  assert (Hi : __init__ Fixture.undocumented_stop Fixture.node 1546300800
               = Ok (Fixture.proto Fixture.undocumented_stop))
    by reflexivity.
  destruct (C1_descriptions_checked_when_help_is_painted
              unit Fixture.undocumented_stop Fixture.node 1546300800
              (Fixture.proto Fixture.undocumented_stop)
              (Fixture.fresh Fixture.undocumented_stop) Hi eq_refl)
    as (Hc & _ & Hr & _).
  split; [exact Hi|]. split; [exact Hc|].
  apply Hr. exists stop_m. reflexivity.
Defined.

Lemma C2_witness :
  decode [xff] = None /\
  lineReceived Fixture.quiet Fixture.no_unicode [xff]
               (Fixture.fresh UrsulaCommandProtocol_doc)
  = (Raise UnicodeDecodeError, Fixture.fresh UrsulaCommandProtocol_doc).
Proof.
  split; [reflexivity|].
  apply (C2_decode_error_propagates unit Fixture.quiet Fixture.no_unicode).
  reflexivity.
Defined.

Lemma C4_witness :
  __init__ UrsulaCommandProtocol_doc Fixture.node 1546300800
    = Ok (Fixture.proto UrsulaCommandProtocol_doc) /\
  encode (str "Ursula(" ++
          firstn 9 (checksum_public_address Fixture.node) ++ str ") >>> ")
    = Some (prompt (Fixture.proto UrsulaCommandProtocol_doc)).
Proof.
  assert (Hi : __init__ UrsulaCommandProtocol_doc Fixture.node 1546300800
               = Ok (Fixture.proto UrsulaCommandProtocol_doc))
    by reflexivity.
  split; [exact Hi|].
  exact (proj1 (C4_prompt_is_Ursula_short_address
                  unit Fixture.quiet Fixture.no_unicode
                  UrsulaCommandProtocol_doc Fixture.node 1546300800
                  (Fixture.proto UrsulaCommandProtocol_doc)
                  (Fixture.fresh UrsulaCommandProtocol_doc) Hi eq_refl)).
Defined.

Lemma C5_witness :
  decode (Fixture.utf8 (str "frobnicate")) = Some (str "frobnicate") /\
  exists s',
    lineReceived Fixture.quiet Fixture.no_unicode
                 (Fixture.utf8 (str "frobnicate"))
                 (Fixture.fresh UrsulaCommandProtocol_doc) = (Ok tt, s') /\
    console s' =
      [plain (str "Invalid input. Options are ?, help, status, known_nodes, fleet_state, cycle_teacher, start_learning, stop_learning, stop")] /\
    __history (self s') = [].
Proof.
  assert (Hd : decode (Fixture.utf8 (str "frobnicate"))
               = Some (str "frobnicate")) by reflexivity.
  split; [exact Hd|].
  destruct (C5_unknown_command_message
              unit Fixture.quiet Fixture.no_unicode
              UrsulaCommandProtocol_doc
              (Fixture.utf8 (str "frobnicate")) (str "frobnicate")
              (Fixture.fresh UrsulaCommandProtocol_doc) eq_refl Hd)
    as (s' & Hl & Hc & Hs & _).
  - discriminate.
  - vm_compute. intros H.
    repeat (destruct H as [H|H]; [discriminate H|]). exact H.
  - exists s'. split; [exact Hl|]. split; [exact Hc|].
    rewrite Hs. reflexivity.
Defined.

Lemma C6_witness :
  letter_case_variant (str "STATUS") (str "status") /\
  decode (Fixture.utf8 (str "  STATUS ")) = Some (str "  STATUS ") /\
  __history (self (snd (lineReceived Fixture.quiet Fixture.no_unicode
                          (Fixture.utf8 (str "  STATUS "))
                          (Fixture.fresh UrsulaCommandProtocol_doc))))
    = [str "  STATUS "].
Proof.
  assert (Hv : letter_case_variant (str "STATUS") (str "status")).
  { repeat (apply Forall2_cons; [right; reflexivity|]). apply Forall2_nil. }
  assert (Hd : decode (Fixture.utf8 (str "  STATUS "))
               = Some (str "  " ++ str "STATUS" ++ str " ")) by reflexivity.
  split; [exact Hv|]. split; [exact Hd|].
  pose proof (C6_registered_name_invokes_its_handler
                unit Fixture.quiet Fixture.no_unicode
                UrsulaCommandProtocol_doc (str "status")
                {| im_func := paintStatus_m;
                   __doc__ := UrsulaCommandProtocol_doc paintStatus_m |}
                (str "STATUS") (str "  ") (str " ")
                (Fixture.utf8 (str "  STATUS "))
                (Fixture.fresh UrsulaCommandProtocol_doc)
                eq_refl eq_refl Hv eq_refl eq_refl Hd) as H.
  destruct (lineReceived Fixture.quiet Fixture.no_unicode
              (Fixture.utf8 (str "  STATUS "))
              (Fixture.fresh UrsulaCommandProtocol_doc)) as [r s'].
  destruct H as (_ & _ & Hh & _). exact Hh.
Defined.

Lemma C7_witness :
  decode (Fixture.utf8 (str "   ")) = Some (str "   ") /\
  exists s',
    lineReceived Fixture.quiet Fixture.no_unicode
                 (Fixture.utf8 (str "   "))
                 (Fixture.fresh UrsulaCommandProtocol_doc) = (Ok tt, s') /\
    console s' = [] /\
    self s' = Fixture.proto UrsulaCommandProtocol_doc /\
    transport s' = [prompt (Fixture.proto UrsulaCommandProtocol_doc)].
Proof.
  assert (Hd : decode (Fixture.utf8 (str "   ")) = Some (str "   "))
    by reflexivity.
  split; [exact Hd|].
  destruct (C7_blank_line_only_reprompts
              unit Fixture.quiet Fixture.no_unicode
              UrsulaCommandProtocol_doc
              (Fixture.utf8 (str "   ")) (str "   ")
              (Fixture.fresh UrsulaCommandProtocol_doc)
              eq_refl Hd eq_refl)
    as (s' & Hl & Hc & Hs & Ht & _).
  exists s'. repeat split; assumption.
Defined.

Lemma C8_witness :
  (length (__history (self (Fixture.fresh UrsulaCommandProtocol_doc)))
   <= maxlen)%nat /\
  __history (self (session Fixture.quiet Fixture.no_unicode
                     (map Fixture.utf8 Fixture.twelve)
                     (Fixture.fresh UrsulaCommandProtocol_doc)))
  = lastn 10 (accepted Fixture.quiet Fixture.no_unicode
                (map Fixture.utf8 Fixture.twelve)
                (Fixture.fresh UrsulaCommandProtocol_doc)).
Proof.
  assert (Hlen : (length (__history
                            (self (Fixture.fresh UrsulaCommandProtocol_doc)))
                  <= maxlen)%nat).
  { unfold maxlen. simpl. lia. }
  split; [exact Hlen|].
  exact (proj1 (C8_history_keeps_last_ten
                  unit Fixture.quiet Fixture.no_unicode
                  (map Fixture.utf8 Fixture.twelve)
                  (Fixture.fresh UrsulaCommandProtocol_doc) Hlen)).
Defined.

(** Twelve accepted commands leave the last ten, in the order sent. *)
Example twelve_commands_leave_last_ten :
  accepted Fixture.quiet Fixture.no_unicode
    (map Fixture.utf8 Fixture.twelve)
    (Fixture.fresh UrsulaCommandProtocol_doc) = Fixture.twelve /\
  __history (self (session Fixture.quiet Fixture.no_unicode
                     (map Fixture.utf8 Fixture.twelve)
                     (Fixture.fresh UrsulaCommandProtocol_doc)))
  = skipn 2 Fixture.twelve.
Proof. split; vm_compute; reflexivity. Qed.

Lemma C10_witness :
  invoke (Fixture.broken KeyError)
         {| im_func := cycle_teacher_m;
            __doc__ := UrsulaCommandProtocol_doc cycle_teacher_m |}
         (Fixture.fresh UrsulaCommandProtocol_doc)
  = (Raise KeyError,
     snd (invoke (Fixture.broken KeyError)
            {| im_func := cycle_teacher_m;
               __doc__ := UrsulaCommandProtocol_doc cycle_teacher_m |}
            (Fixture.fresh UrsulaCommandProtocol_doc))) /\
  exists s',
    lineReceived (Fixture.broken KeyError) Fixture.no_unicode
                 (Fixture.utf8 (str "cycle_teacher"))
                 (Fixture.fresh UrsulaCommandProtocol_doc) = (Ok tt, s') /\
    console s' = [plain (invalid_input command_names)] /\
    __history (self s') = [] /\
    In (Invoked cycle_teacher_m) (trace s').
Proof.
  assert (Hi : invoke (Fixture.broken KeyError)
                 {| im_func := cycle_teacher_m;
                    __doc__ := UrsulaCommandProtocol_doc cycle_teacher_m |}
                 (Fixture.fresh UrsulaCommandProtocol_doc)
               = (Raise KeyError,
                  snd (invoke (Fixture.broken KeyError)
                         {| im_func := cycle_teacher_m;
                            __doc__ :=
                              UrsulaCommandProtocol_doc cycle_teacher_m |}
                         (Fixture.fresh UrsulaCommandProtocol_doc))))
    by reflexivity.
  split; [exact Hi|].
  destruct (C10_handler_KeyError_taken_for_unknown
              unit (Fixture.broken KeyError) Fixture.no_unicode
              UrsulaCommandProtocol_doc
              (Fixture.utf8 (str "cycle_teacher")) (str "cycle_teacher")
              _ (Fixture.fresh UrsulaCommandProtocol_doc) _
              eq_refl eq_refl eq_refl Hi)
    as (s' & Hl & Hc & Hh & Hin & _).
  exists s'. repeat split; assumption.
Defined.

(** ** Where the code departs from the specification's wording *)

(** C1: a class whose [stop] has no docstring is instantiated without
    error, and its registry holds the undocumented command. *)
Lemma C1_counterexample :
  __init__ Fixture.undocumented_stop Fixture.node 1546300800
    = Ok (Fixture.proto Fixture.undocumented_stop) /\
  getitem (__commands (Fixture.proto Fixture.undocumented_stop)) (str "stop")
    = Some {| im_func := stop_m; __doc__ := None |}.
Proof. split; reflexivity. Qed.

(** C2: the byte 0xFF is not UTF-8; the dispatcher raises, echoes
    nothing and writes no prompt. *)
Lemma C2_counterexample :
  decode [xff] = None /\
  fst (lineReceived Fixture.quiet Fixture.no_unicode [xff]
         (Fixture.fresh UrsulaCommandProtocol_doc))
    = Raise UnicodeDecodeError /\
  console (snd (lineReceived Fixture.quiet Fixture.no_unicode [xff]
                  (Fixture.fresh UrsulaCommandProtocol_doc))) = [] /\
  transport (snd (lineReceived Fixture.quiet Fixture.no_unicode [xff]
                    (Fixture.fresh UrsulaCommandProtocol_doc))) = [].
Proof. repeat split; reflexivity. Qed.

(** C3: when the node fails to cycle its teacher, the line
    "cycle_teacher" ends in that failure and no prompt is written. *)
Lemma C3_counterexample :
  fst (lineReceived (Fixture.broken (OtherError (str "RuntimeError")))
         Fixture.no_unicode (Fixture.utf8 (str "cycle_teacher"))
         (Fixture.fresh UrsulaCommandProtocol_doc))
    = Raise (OtherError (str "RuntimeError")) /\
  transport
    (snd (lineReceived (Fixture.broken (OtherError (str "RuntimeError")))
            Fixture.no_unicode (Fixture.utf8 (str "cycle_teacher"))
            (Fixture.fresh UrsulaCommandProtocol_doc))) = [].
Proof. split; reflexivity. Qed.

(** C4: the prompt of a node is no prefix of its address followed by
    " >>> ": it starts with "Ursula(". *)
Lemma C4_counterexample :
  __init__ UrsulaCommandProtocol_doc Fixture.node 1546300800
    = Ok (Fixture.proto UrsulaCommandProtocol_doc) /\
  forall n,
    encode (firstn n (checksum_public_address Fixture.node) ++ str " >>> ")
    <> Some (prompt (Fixture.proto UrsulaCommandProtocol_doc)).
Proof.
  split; [reflexivity|].
  intros [|n].
  - vm_compute. discriminate.
  - change (checksum_public_address Fixture.node)
      with (48 :: tl (checksum_public_address Fixture.node)).
    cbn [firstn app encode].
    change (encode_cp 48) with (Some [x30]).
    destruct (encode _) as [b|]; [|discriminate].
    change (prompt (Fixture.proto UrsulaCommandProtocol_doc))
      with (x55 :: tl (prompt (Fixture.proto UrsulaCommandProtocol_doc))).
    cbn [app]. intros H. injection H as H _. discriminate H.
Qed.

(** C5: the message for "frobnicate" has no colon after "are". *)
Lemma C5_counterexample :
  console (snd (lineReceived Fixture.quiet Fixture.no_unicode
                  (Fixture.utf8 (str "frobnicate"))
                  (Fixture.fresh UrsulaCommandProtocol_doc)))
    = [plain (str "Invalid input. Options are ?, help, status, known_nodes, fleet_state, cycle_teacher, start_learning, stop_learning, stop")] /\
  str "Invalid input. Options are ?, help, status, known_nodes, fleet_state, cycle_teacher, start_learning, stop_learning, stop"
    <> str "Invalid input. Options are: ?, help, status, known_nodes, fleet_state, cycle_teacher, start_learning, stop_learning, stop".
Proof. split; [reflexivity|discriminate]. Qed.

(** C6: the registered name "cycle_teacher", in mixed case and padded,
    invokes its handler; the node fails, and the line is not appended
    to the history. *)
Lemma C6_counterexample :
  getitem (command_table UrsulaCommandProtocol_doc) (str "cycle_teacher")
    = Some {| im_func := cycle_teacher_m;
              __doc__ := UrsulaCommandProtocol_doc cycle_teacher_m |} /\
  decode (Fixture.utf8 (str " Cycle_Teacher "))
    = Some (str " Cycle_Teacher ") /\
  trace (snd (lineReceived
                (Fixture.broken (OtherError (str "RuntimeError")))
                Fixture.no_unicode (Fixture.utf8 (str " Cycle_Teacher "))
                (Fixture.fresh UrsulaCommandProtocol_doc)))
    = [Invoked cycle_teacher_m; Called (cycle_teacher_node Fixture.node)] /\
  __history
    (self (snd (lineReceived
                  (Fixture.broken (OtherError (str "RuntimeError")))
                  Fixture.no_unicode (Fixture.utf8 (str " Cycle_Teacher "))
                  (Fixture.fresh UrsulaCommandProtocol_doc)))) = [].
Proof. repeat split; reflexivity. Qed.


(** * Further properties of the console *)

(** ** The UTF-8 codec round trip *)

Module Utf8Facts.

Ltac dlia := zify; Z.to_euclidean_division_equations; lia.

Lemma to_N_byte_of n : n < 256 -> Byte.to_N (byte_of n) = n.
Proof.
  intros H. unfold byte_of. rewrite N.mod_small by exact H.
  destruct (Byte.of_N n) as [b|] eqn:E.
  - apply Byte.to_of_N. exact E.
  - apply Byte.of_N_None_iff in E. lia.
Qed.

Lemma land_high_low m k a : a < 2 ^ k -> N.land (m * 2 ^ k) a = 0.
Proof.
  intros H. apply N.bits_inj. intros i.
  rewrite N.land_spec, N.bits_0.
  destruct (N.lt_ge_cases i k) as [Hi|Hi].
  - rewrite N.mul_pow2_bits_low by exact Hi. reflexivity.
  - destruct (N.eq_dec a 0) as [->|Ha].
    + rewrite N.bits_0. apply andb_false_r.
    + rewrite (N.bits_above_log2 a i); [apply andb_false_r|].
      apply N.log2_lt_pow2; [lia|].
      apply N.lt_le_trans with (2 ^ k); [exact H|].
      apply N.pow_le_mono_r; [lia|exact Hi].
Qed.

Lemma lor_high_low m k a : a < 2 ^ k -> N.lor (m * 2 ^ k) a = m * 2 ^ k + a.
Proof.
  intros H. pose proof (land_high_low m k a H) as Hl.
  rewrite (N.add_nocarry_lxor _ _ Hl). symmetry. apply N.lxor_lor. exact Hl.
Qed.

Lemma lor_192 h : h < 32 -> N.lor 192 h = 192 + h.
Proof. intros H. apply (lor_high_low 6 5 h). exact H. Qed.

Lemma lor_224 h : h < 16 -> N.lor 224 h = 224 + h.
Proof. intros H. apply (lor_high_low 14 4 h). exact H. Qed.

Lemma lor_240 h : h < 8 -> N.lor 240 h = 240 + h.
Proof. intros H. apply (lor_high_low 30 3 h). exact H. Qed.

Lemma lor_128 l : l < 64 -> N.lor 128 l = 128 + l.
Proof. intros H. apply (lor_high_low 2 6 l). exact H. Qed.

Lemma shiftr_6 c : N.shiftr c 6 = c / 64.
Proof. apply (N.shiftr_div_pow2 c 6). Qed.

Lemma shiftr_12 c : N.shiftr c 12 = c / 4096.
Proof. apply (N.shiftr_div_pow2 c 12). Qed.

Lemma shiftr_18 c : N.shiftr c 18 = c / 262144.
Proof. apply (N.shiftr_div_pow2 c 18). Qed.

Lemma land_63 c : N.land c 63 = c mod 64.
Proof. apply (N.land_ones c 6). Qed.

Lemma land_31 c : N.land c 31 = c mod 32.
Proof. apply (N.land_ones c 5). Qed.

Lemma land_15 c : N.land c 15 = c mod 16.
Proof. apply (N.land_ones c 4). Qed.

Lemma land_7 c : N.land c 7 = c mod 8.
Proof. apply (N.land_ones c 3). Qed.

Lemma join_6 a b : b < 64 -> N.lor (N.shiftl a 6) b = a * 64 + b.
Proof.
  intros H. rewrite N.shiftl_mul_pow2. apply (lor_high_low a 6 b). exact H.
Qed.

Lemma join_12 a b : b < 4096 -> N.lor (N.shiftl a 12) b = a * 4096 + b.
Proof.
  intros H. rewrite N.shiftl_mul_pow2. apply (lor_high_low a 12 b). exact H.
Qed.

Lemma join_18 a b : b < 262144 -> N.lor (N.shiftl a 18) b = a * 262144 + b.
Proof.
  intros H. rewrite N.shiftl_mul_pow2. apply (lor_high_low a 18 b). exact H.
Qed.

(** The byte [tail6 c] is a continuation byte carrying the low six
    bits of [c]. *)
Lemma tail6_value c : Byte.to_N (tail6 c) = 128 + c mod 64.
Proof.
  unfold tail6. rewrite land_63.
  rewrite lor_128 by (apply N.mod_lt; lia).
  apply to_N_byte_of. dlia.
Qed.

Lemma tail6_is_cont c : is_cont (Byte.to_N (tail6 c)) = true.
Proof.
  rewrite tail6_value. unfold is_cont.
  apply andb_true_iff. split; apply N.leb_le; dlia.
Qed.

Lemma tail6_cont c : cont (Byte.to_N (tail6 c)) = c mod 64.
Proof.
  rewrite tail6_value. unfold cont. rewrite land_63. dlia.
Qed.

(** [decode], one code point at a time. *)
Lemma decode_1 b r :
  Byte.to_N b < 128 ->
  decode (b :: r) = option_map (cons (Byte.to_N b)) (decode r).
Proof.
  intros H. cbn [decode]. rewrite (proj2 (N.ltb_lt _ _) H). reflexivity.
Qed.

Lemma decode_2 b0 b1 r :
  194 <= Byte.to_N b0 <= 223 ->
  is_cont (Byte.to_N b1) = true ->
  decode (b0 :: b1 :: r) =
  option_map (cons (N.lor (N.shiftl (N.land (Byte.to_N b0) 31) 6)
                          (cont (Byte.to_N b1))))
             (decode r).
Proof.
  intros H0 H1. cbn [decode].
  rewrite (proj2 (N.ltb_ge _ _)) by lia.
  rewrite (proj2 (N.leb_le 194 _)) by lia.
  rewrite (proj2 (N.leb_le _ 223)) by lia.
  cbn [andb]. rewrite H1. reflexivity.
Qed.

Lemma decode_3 b0 b1 b2 r :
  224 <= Byte.to_N b0 <= 239 ->
  (if Byte.to_N b0 =? 224 then 160 else 128) <= Byte.to_N b1 ->
  Byte.to_N b1 <= (if Byte.to_N b0 =? 237 then 159 else 191) ->
  is_cont (Byte.to_N b2) = true ->
  decode (b0 :: b1 :: b2 :: r) =
  option_map
    (cons (N.lor (N.shiftl (N.land (Byte.to_N b0) 15) 12)
                 (N.lor (N.shiftl (cont (Byte.to_N b1)) 6)
                        (cont (Byte.to_N b2)))))
    (decode r).
Proof.
  intros H0 Hlo Hhi H2. cbn [decode].
  rewrite (proj2 (N.ltb_ge _ _)) by lia.
  replace ((194 <=? Byte.to_N b0) && (Byte.to_N b0 <=? 223)) with false
    by (symmetry; apply andb_false_iff; right; apply N.leb_gt; lia).
  rewrite (proj2 (N.leb_le 224 _)) by lia.
  rewrite (proj2 (N.leb_le _ 239)) by lia.
  cbn [andb].
  rewrite (proj2 (N.leb_le _ _) Hlo), (proj2 (N.leb_le _ _) Hhi), H2.
  reflexivity.
Qed.

Lemma decode_4 b0 b1 b2 b3 r :
  240 <= Byte.to_N b0 <= 244 ->
  (if Byte.to_N b0 =? 240 then 144 else 128) <= Byte.to_N b1 ->
  Byte.to_N b1 <= (if Byte.to_N b0 =? 244 then 143 else 191) ->
  is_cont (Byte.to_N b2) = true ->
  is_cont (Byte.to_N b3) = true ->
  decode (b0 :: b1 :: b2 :: b3 :: r) =
  option_map
    (cons (N.lor (N.shiftl (N.land (Byte.to_N b0) 7) 18)
                 (N.lor (N.shiftl (cont (Byte.to_N b1)) 12)
                        (N.lor (N.shiftl (cont (Byte.to_N b2)) 6)
                               (cont (Byte.to_N b3))))))
    (decode r).
Proof.
  intros H0 Hlo Hhi H2 H3. cbn [decode].
  rewrite (proj2 (N.ltb_ge _ _)) by lia.
  replace ((194 <=? Byte.to_N b0) && (Byte.to_N b0 <=? 223)) with false
    by (symmetry; apply andb_false_iff; right; apply N.leb_gt; lia).
  replace ((224 <=? Byte.to_N b0) && (Byte.to_N b0 <=? 239)) with false
    by (symmetry; apply andb_false_iff; right; apply N.leb_gt; lia).
  rewrite (proj2 (N.leb_le 240 _)) by lia.
  rewrite (proj2 (N.leb_le _ 244)) by lia.
  cbn [andb].
  rewrite (proj2 (N.leb_le _ _) Hlo), (proj2 (N.leb_le _ _) Hhi), H2, H3.
  reflexivity.
Qed.

(** Decoding what [encode_cp] produced gives the code point back and
    goes on with the rest of the input. *)
Lemma decode_encode_cp c bs rest :
  encode_cp c = Some bs ->
  decode (bs ++ rest) = option_map (cons c) (decode rest).
Proof.
  unfold encode_cp.
  destruct (N.ltb_spec c 128) as [H1|H1].
  { intros H. assert (bs = [byte_of c]) as -> by congruence. cbn [app].
    rewrite decode_1; rewrite to_N_byte_of by lia; [reflexivity|lia]. }
  destruct (N.ltb_spec c 2048) as [H2|H2].
  { intros H.
    assert (bs = [byte_of (N.lor 192 (N.shiftr c 6)); tail6 c]) as ->
      by congruence.
    cbn [app].
    assert (E0 : Byte.to_N (byte_of (N.lor 192 (N.shiftr c 6)))
                 = 192 + c / 64).
    { rewrite shiftr_6, lor_192 by dlia. apply to_N_byte_of. dlia. }
    rewrite decode_2; [|rewrite E0; dlia|apply tail6_is_cont].
    rewrite E0, tail6_cont, land_31.
    rewrite join_6 by dlia. f_equal. f_equal. dlia. }
  destruct ((55296 <=? c) && (c <=? 57343)) eqn:Hs; [discriminate|].
  assert (Hns : c < 55296 \/ 57343 < c).
  { apply andb_false_iff in Hs. destruct Hs as [Hs|Hs].
    - left. apply N.leb_gt. exact Hs.
    - right. apply N.leb_gt. exact Hs. }
  clear Hs.
  destruct (N.ltb_spec c 65536) as [H3|H3].
  { intros H.
    assert (bs = [byte_of (N.lor 224 (N.shiftr c 12));
                  tail6 (N.shiftr c 6); tail6 c]) as -> by congruence.
    cbn [app].
    assert (E0 : Byte.to_N (byte_of (N.lor 224 (N.shiftr c 12)))
                 = 224 + c / 4096).
    { rewrite shiftr_12, lor_224 by dlia. apply to_N_byte_of. dlia. }
    assert (E1 : Byte.to_N (tail6 (N.shiftr c 6)) = 128 + (c / 64) mod 64).
    { rewrite tail6_value, shiftr_6. reflexivity. }
    rewrite decode_3; [|rewrite E0; dlia| | |apply tail6_is_cont].
    - rewrite E0, !tail6_cont, land_15, shiftr_6.
      rewrite join_6 by dlia. rewrite join_12 by dlia.
      f_equal. f_equal. dlia.
    - rewrite E0, E1. destruct (N.eqb_spec (224 + c / 4096) 224); dlia.
    - rewrite E0, E1. destruct (N.eqb_spec (224 + c / 4096) 237); dlia. }
  destruct (N.ltb_spec c 1114112) as [H4|H4]; [|discriminate].
  intros H.
  assert (bs = [byte_of (N.lor 240 (N.shiftr c 18)); tail6 (N.shiftr c 12);
                tail6 (N.shiftr c 6); tail6 c]) as -> by congruence.
  cbn [app].
  assert (E0 : Byte.to_N (byte_of (N.lor 240 (N.shiftr c 18)))
               = 240 + c / 262144).
  { rewrite shiftr_18, lor_240 by dlia. apply to_N_byte_of. dlia. }
  assert (E1 : Byte.to_N (tail6 (N.shiftr c 12)) = 128 + (c / 4096) mod 64).
  { rewrite tail6_value, shiftr_12. reflexivity. }
  rewrite decode_4;
    [|rewrite E0; dlia| | |apply tail6_is_cont|apply tail6_is_cont].
  - rewrite E0, !tail6_cont, land_7, shiftr_6, shiftr_12.
    rewrite join_6 by dlia. rewrite join_12 by dlia.
    rewrite join_18 by dlia.
    f_equal. f_equal. dlia.
  - rewrite E0, E1. destruct (N.eqb_spec (240 + c / 262144) 240); dlia.
  - rewrite E0, E1. destruct (N.eqb_spec (240 + c / 262144) 244); dlia.
Qed.

Lemma encode_cp_scalar c :
  (exists bs, encode_cp c = Some bs) <-> is_scalar c = true.
Proof.
  unfold encode_cp, is_scalar.
  destruct (N.ltb_spec c 128); destruct (N.ltb_spec c 2048);
    destruct (N.leb_spec 55296 c); destruct (N.leb_spec c 57343);
    destruct (N.ltb_spec c 65536); destruct (N.ltb_spec c 1114112);
    destruct (N.ltb_spec c 55296); destruct (N.ltb_spec 57343 c);
    cbn [andb orb]; try lia;
    split; try discriminate; try (intros _; eexists; reflexivity);
    try (intros [bs Hbs]; discriminate Hbs); reflexivity.
Qed.

Lemma encode_scalar s :
  (exists bs, encode s = Some bs) <-> forallb is_scalar s = true.
Proof.
  induction s as [|c r IH]; cbn [encode forallb].
  - split; [reflexivity|]. intros _. exists []. reflexivity.
  - rewrite andb_true_iff, <- IH, <- encode_cp_scalar. split.
    + intros [bs H]. destruct (encode_cp c) as [b|]; [|discriminate].
      destruct (encode r) as [br|]; [|discriminate].
      split; eexists; reflexivity.
    + intros [[b ->] [br ->]]. eexists. reflexivity.
Qed.

End Utf8Facts.

Lemma decode_encode s bs : encode s = Some bs -> decode bs = Some s.
Proof.
  revert bs. induction s as [|c r IH]; cbn [encode]; intros bs H.
  - assert (bs = []) as -> by congruence. reflexivity.
  - destruct (encode_cp c) as [b|] eqn:Ec; [|discriminate].
    destruct (encode r) as [br|] eqn:Er; [|discriminate].
    assert (bs = b ++ br) as -> by congruence.
    rewrite (Utf8Facts.decode_encode_cp c b br Ec).
    rewrite (IH br eq_refl). reflexivity.
Qed.

(** X1: whatever [bytes(s, encoding='utf-8')] produces,
    [decode('utf-8')] reads back as [s]. *)
Theorem utf8_round_trip s bs : encode s = Some bs -> decode bs = Some s.
Proof. apply decode_encode. Qed.

Lemma utf8_round_trip_witness :
  encode [65; 233; 8364; 128512] =
    Some [x41; xc3; xa9; xe2; x82; xac; xf0; x9f; x98; x80] /\
  decode [x41; xc3; xa9; xe2; x82; xac; xf0; x9f; x98; x80] =
    Some [65; 233; 8364; 128512].
Proof.
  assert (H : encode [65; 233; 8364; 128512] =
              Some [x41; xc3; xa9; xe2; x82; xac; xf0; x9f; x98; x80])
    by reflexivity.
  split; [exact H|]. exact (utf8_round_trip _ _ H).
Defined.

(** X2: encoding fails exactly on a string that holds a surrogate or a
    value above U+10FFFF. *)
Theorem utf8_encodes_exactly_scalars s :
  (exists bs, encode s = Some bs) <-> forallb is_scalar s = true.
Proof. apply Utf8Facts.encode_scalar. Qed.

(** X3: the constructor fails only on the prompt's encoding: it returns
    when the first 9 characters of the address are scalar values, with
    an empty history, the nine distinct command names and a prompt that
    decodes to "Ursula(<those characters>) >>> "; otherwise it raises
    [UnicodeEncodeError].  The docstrings play no part. *)
Theorem init_fails_only_on_the_prompt cls u now :
  if forallb is_scalar (firstn 9 (checksum_public_address u))
  then exists p,
      __init__ cls u now = Ok p /\
      ursula p = u /\ start_time p = now /\ __history p = [] /\
      commands p = command_names /\ NoDup (commands p) /\
      decode (prompt p) =
        Some (str "Ursula(" ++ firstn 9 (checksum_public_address u)
                            ++ str ") >>> ")
  else __init__ cls u now = Raise UnicodeEncodeError.
Proof.
  assert (Hs : forallb is_scalar (prompt_text u) =
               forallb is_scalar (firstn 9 (checksum_public_address u))).
  { unfold prompt_text. rewrite !forallb_app.
    change (forallb is_scalar (str "Ursula(")) with true.
    change (forallb is_scalar (str ") >>> ")) with true.
    rewrite andb_true_r. reflexivity. }
  rewrite <- Hs. unfold __init__.
  destruct (encode (prompt_text u)) as [b|] eqn:E.
  - assert (Ht : forallb is_scalar (prompt_text u) = true).
    { apply Utf8Facts.encode_scalar. exists b. exact E. }
    rewrite Ht. eexists. split; [reflexivity|].
    cbn [ursula start_time __history prompt].
    repeat split.
    + unfold commands, command_names. cbn.
      repeat (apply NoDup_cons;
              [cbn; intros H;
               repeat (destruct H as [H|H]; [discriminate H|]); exact H|]).
      apply NoDup_nil.
    + apply decode_encode. exact E.
  - destruct (forallb is_scalar (prompt_text u)) eqn:Ht; [|reflexivity].
    apply Utf8Facts.encode_scalar in Ht. destruct Ht as [b Hb]. congruence.
Qed.

(** ** The handlers *)

Section HandlerProperties.

Variable World : Type.
Variable ext : ext_call -> World -> result pystr * World.

Lemma echoed_nil (s : state World) : echoed s [] = s.
Proof. destruct s. unfold echoed. cbn. rewrite app_nil_r. reflexivity. Qed.

Lemma echoed_echoed (s : state World) es es' :
  echoed (echoed s es) es' = echoed s (es ++ es').
Proof. unfold echoed. cbn. rewrite app_assoc. reflexivity. Qed.

(** A command that stands for one collaborator call makes that call
    and returns or raises as the call does. *)
Lemma control_body m c (s : state World) :
  control_call (self s) m = Some c ->
  body ext m s =
  (forwarded (fst (ext c (world s))), called s c (snd (ext c (world s)))).
Proof.
  destruct m; cbn [control_call]; intros H; try discriminate H;
    assert (Hc : Some c = Some c) by reflexivity;
    injection H as <-;
    cbn [body];
    unfold paintStatus, paintKnownNodes, cycle_teacher, start_learning,
           stop_learning, stop, bind, get_self, call, ret, called;
    match goal with
    | |- context [ext ?c (world s)] =>
      destruct (ext c (world s)) as [[v|e] w]; reflexivity
    end.
Qed.


(** The help loop echoes the entries it lists, in order. *)
Lemma paintHelp_items_all_documented items (s : state World) :
  forallb (fun kf => negb (listed kf) || documented kf) items = true ->
  paintHelp_items items s =
  (Ok tt, echoed s (map entry_of (filter listed items))).
Proof.
  revert s. induction items as [|[command func] rest IH]; intros s H.
  - cbn. rewrite echoed_nil. reflexivity.
  - cbn [forallb] in H. apply andb_true_iff in H. destruct H as [Hd Hr].
    cbn [paintHelp_items filter]. unfold listed at 1 in Hd.
    unfold listed at 1. cbn [fst] in *.
    destruct (negb (contains 63 command)) eqn:Hl.
    + unfold documented in Hd. cbn [snd negb orb] in Hd.
      destruct (__doc__ func) as [doc|] eqn:Hdoc; [|discriminate].
      unfold bind, secho. cbn iota. rewrite (IH _ Hr).
      unfold echoed. cbn [self transport console trace world map].
      rewrite <- app_assoc. cbn [app].
      unfold entry_of at 2. cbn [fst snd]. rewrite Hdoc. reflexivity.
    + apply IH. exact Hr.
Qed.

(** X5: the help loop stops at the first listed command without a
    docstring: the entries before it have been echoed, and
    [AttributeError] is raised. *)
Theorem paintHelp_stops_at_first_undocumented
        pre command func post (s : state World) :
  forallb (fun kf => negb (listed kf) || documented kf) pre = true ->
  contains 63 command = false ->
  __doc__ func = None ->
  paintHelp_items (pre ++ (command, func) :: post) s =
  (Raise (AttributeError missing_docstring),
   echoed s (map entry_of (filter listed pre))).
Proof.
  revert s. induction pre as [|[k f] pre IH]; intros s Hpre Hc Hd.
  - cbn [app paintHelp_items filter map]. rewrite Hc, Hd. cbn.
    rewrite echoed_nil. reflexivity.
  - cbn [forallb] in Hpre. apply andb_true_iff in Hpre.
    destruct Hpre as [Hk Hpre].
    cbn [app paintHelp_items filter]. unfold listed at 1 in Hk.
    unfold listed at 1. cbn [fst] in *.
    destruct (negb (contains 63 k)) eqn:Hl.
    + unfold documented in Hk. cbn [snd negb orb] in Hk.
      destruct (__doc__ f) as [doc|] eqn:Hdoc; [|discriminate].
      unfold bind, secho. cbn iota. rewrite (IH _ Hpre Hc Hd).
      unfold echoed. cbn [self transport console trace world map].
      rewrite <- app_assoc. cbn [app].
      unfold entry_of at 2. cbn [fst snd]. rewrite Hdoc. reflexivity.
    + apply IH; assumption.
Qed.

(** X6: no handler writes to the transport, changes the protocol
    object (so neither the history nor the registry), or invokes a
    handler; it only adds echoes and collaborator calls. *)
Theorem handlers_leave_session_state_alone m (s : state World) :
  self (snd (body ext m s)) = self s /\
  transport (snd (body ext m s)) = transport s /\
  (exists es, console (snd (body ext m s)) = console s ++ es) /\
  (exists evs, trace (snd (body ext m s)) = trace s ++ evs /\
               filter is_invoked evs = []).
Proof. exact (body_frame World ext m s). Qed.

End HandlerProperties.

(** ** Lines that name a command *)

Section LineProperties.

Variable World : Type.
Variable ext : ext_call -> World -> result pystr * World.
Variable unicode_lower : pystr -> pystr.

(** The key of a registered name in any letter case, padded with white
    space, is the name. *)
Lemma padded_variant_key tok v ws1 ws2 :
  In tok command_names ->
  letter_case_variant v tok ->
  forallb is_space ws1 = true ->
  forallb is_space ws2 = true ->
  lower unicode_lower (strip (ws1 ++ v ++ ws2)) = tok.
Proof.
  intros Hin Hv H1 H2.
  destruct (StrFacts.command_names_token_chars tok Hin) as [Htc _].
  destruct (StrFacts.variant_normalises v tok Htc Hv) as (Ha & Hm & Hs).
  rewrite StrFacts.strip_padded by assumption.
  unfold lower. rewrite Ha. exact Hm.
Qed.

Lemma invoke_is_body f (s : state World) :
  invoke ext f s =
  body ext (im_func f)
       {| self := self s; transport := transport s; console := console s;
          trace := trace s ++ [Invoked (im_func f)]; world := world s |}.
Proof. reflexivity. Qed.

(** X7: a line that names a command standing for one collaborator call
    (status, known_nodes, cycle_teacher, start_learning, stop_learning,
    stop), in any letter case and padding, invokes its handler once and
    makes exactly that call.  The line returns when the call returns or
    raises [KeyError] (which is answered with the invalid-input
    message); any other exception of the call is raised by the line. *)
Theorem control_line_makes_exactly_one_call
        cls tok f c v ws1 ws2 line (s : state World) :
  __commands (self s) = command_table cls ->
  getitem (command_table cls) tok = Some f ->
  control_call (self s) (im_func f) = Some c ->
  letter_case_variant v tok ->
  forallb is_space ws1 = true ->
  forallb is_space ws2 = true ->
  decode line = Some (ws1 ++ v ++ ws2) ->
  trace (snd (lineReceived ext unicode_lower line s)) =
    trace s ++ [Invoked (im_func f); Called c] /\
  world (snd (lineReceived ext unicode_lower line s)) =
    snd (ext c (world s)) /\
  fst (lineReceived ext unicode_lower line s) =
    match fst (ext c (world s)) with
    | Ok _ | Raise KeyError => Ok tt
    | Raise e => Raise e
    end /\
  console (snd (lineReceived ext unicode_lower line s)) =
    console s ++
    match fst (ext c (world s)) with
    | Raise KeyError => [plain (invalid_input command_names)]
    | _ => []
    end.
Proof.
  intros Hc Hg Hcc Hv H1 H2 Hd.
  destruct (Registry.getitem_registered cls tok f Hg) as [Hin _].
  pose proof (padded_variant_key tok v ws1 ws2 Hin Hv H1 H2) as Hk.
  assert (Hg' : getitem (__commands (self s))
                  (lower unicode_lower (strip (ws1 ++ v ++ ws2))) = Some f).
  { rewrite Hk, Hc. exact Hg. }
  assert (Hi : invoke ext f s =
               (forwarded (fst (ext c (world s))),
                called {| self := self s; transport := transport s;
                          console := console s;
                          trace := trace s ++ [Invoked (im_func f)];
                          world := world s |}
                       c (snd (ext c (world s))))).
  { rewrite invoke_is_body.
    exact (control_body World ext (im_func f) c
             {| self := self s; transport := transport s;
                console := console s;
                trace := trace s ++ [Invoked (im_func f)];
                world := world s |} Hcc). }
  assert (Hne : truthy tok = true).
  { destruct (StrFacts.command_names_token_chars tok Hin) as [_ Hne].
    destruct tok; [contradiction|reflexivity]. }
  destruct (fst (ext c (world s))) as [v0|e] eqn:Hr; cbn [forwarded] in Hi.
  - destruct (lineReceived_hit_ok World ext unicode_lower
                line _ f s _ Hd Hg' Hi)
      as (s' & -> & _ & _ & _ & _ & _ & _ & Hco & Htr & Hw).
    cbn [fst snd]. rewrite Htr, Hw, Hco. cbn.
    rewrite <- app_assoc, app_nil_r. repeat split.
  - destruct e;
      try (rewrite (lineReceived_hit_raise World ext unicode_lower
                      line _ f _ s _ Hd Hg' Hi) by discriminate;
           cbn; rewrite <- app_assoc, app_nil_r; repeat split).
    destruct (lineReceived_hit_KeyError World ext unicode_lower
                line _ f s _ Hd Hg' Hi)
      as (s' & -> & _ & _ & Hco & Htr & Hw).
    cbn [fst snd]. rewrite Htr, Hw, Hco. cbn.
    rewrite <- app_assoc. repeat split.
    unfold complaint, commands. rewrite Hk, Hne, Hc. reflexivity.
Qed.

Lemma paintHelp_all_documented cls doc (s : state World) :
  __commands (self s) = command_table cls ->
  (forall m, cls m = Some (doc m)) ->
  paintHelp s =
  (Ok tt,
   echoed s
     (plain help_header ::
      map (fun km => plain (help_entry (fst km) (doc (snd km))))
          [ (str "help", paintHelp_m); (str "status", paintStatus_m);
            (str "known_nodes", paintKnownNodes_m);
            (str "fleet_state", paintFleetState_m);
            (str "cycle_teacher", cycle_teacher_m);
            (str "start_learning", start_learning_m);
            (str "stop_learning", stop_learning_m);
            (str "stop", stop_m) ])).
Proof.
  intros Hc Hdoc. unfold paintHelp, bind, secho, get_self. cbn iota.
  cbn [self]. rewrite Hc.
  rewrite paintHelp_items_all_documented.
  - unfold echoed. cbn [self transport console trace world].
    rewrite <- app_assoc. cbn [app].
    change (filter listed (command_table cls))
      with (tl (command_table cls)).
    unfold command_table. cbn [tl map]. unfold entry_of.
    cbn [fst snd __doc__]. rewrite !Hdoc. reflexivity.
  - unfold command_table. cbn [forallb]. unfold documented.
    cbn [snd __doc__]. rewrite !Hdoc. reflexivity.
Qed.

Lemma paintHelp_undocumented cls m (s : state World) :
  __commands (self s) = command_table cls ->
  cls m = None ->
  fst (paintHelp s) = Raise (AttributeError missing_docstring).
Proof.
  intros Hc Hm. unfold paintHelp, bind, secho, get_self. cbn iota.
  rewrite paintHelp_items_result. cbn [self]. rewrite Hc.
  match goal with
  | |- (if ?b then _ else _) = _ => destruct b eqn:E; [|reflexivity]
  end.
  exfalso. rewrite forallb_forall in E.
  assert (Hall : forall k, In (k, {| im_func := m; __doc__ := cls m |})
                              (command_table cls) ->
                           contains 63 k = false -> False).
  { intros k Hin Hk. specialize (E _ Hin). cbn [fst snd __doc__] in E.
    rewrite Hk, Hm in E. discriminate E. }
  unfold command_table in Hall. cbn [In] in Hall.
  destruct m.
  - apply (Hall (str "help")); [auto 10|reflexivity].
  - apply (Hall (str "status")); [auto 10|reflexivity].
  - apply (Hall (str "known_nodes")); [auto 10|reflexivity].
  - apply (Hall (str "fleet_state")); [auto 10|reflexivity].
  - apply (Hall (str "cycle_teacher")); [auto 10|reflexivity].
  - apply (Hall (str "start_learning")); [auto 10|reflexivity].
  - apply (Hall (str "stop_learning")); [auto 10|reflexivity].
  - apply (Hall (str "stop")); [auto 12|reflexivity].
Qed.

Lemma help_key_handler cls tok :
  tok = str "help" \/ tok = str "?" ->
  In tok command_names /\
  getitem (command_table cls) tok =
    Some {| im_func := paintHelp_m; __doc__ := cls paintHelp_m |}.
Proof.
  intros [-> | ->]; split; try reflexivity; cbn; auto.
Qed.

(** X8: when every method has a docstring, a line that says "help" or
    "?" (in any letter case and padding) echoes the header and one
    entry for each command except "?", in registration order, calls no
    collaborator, is appended to the history and is followed by the
    prompt. *)
Theorem help_line_lists_the_commands
        cls doc tok v ws1 ws2 line (s : state World) :
  __commands (self s) = command_table cls ->
  (forall m, cls m = Some (doc m)) ->
  tok = str "help" \/ tok = str "?" ->
  letter_case_variant v tok ->
  forallb is_space ws1 = true ->
  forallb is_space ws2 = true ->
  decode line = Some (ws1 ++ v ++ ws2) ->
  exists s',
    lineReceived ext unicode_lower line s = (Ok tt, s') /\
    console s' =
      console s ++
      plain help_header ::
      map (fun km => plain (help_entry (fst km) (doc (snd km))))
          [ (str "help", paintHelp_m); (str "status", paintStatus_m);
            (str "known_nodes", paintKnownNodes_m);
            (str "fleet_state", paintFleetState_m);
            (str "cycle_teacher", cycle_teacher_m);
            (str "start_learning", start_learning_m);
            (str "stop_learning", stop_learning_m);
            (str "stop", stop_m) ] /\
    trace s' = trace s ++ [Invoked paintHelp_m] /\
    world s' = world s /\
    __history (self s') =
      deque_append maxlen (__history (self s)) (ws1 ++ v ++ ws2) /\
    transport s' = transport s ++ [prompt (self s)].
Proof.
  intros Hc Hdoc Htok Hv H1 H2 Hd.
  destruct (help_key_handler cls tok Htok) as [Hin Hg].
  pose proof (padded_variant_key tok v ws1 ws2 Hin Hv H1 H2) as Hk.
  assert (Hg' : getitem (__commands (self s))
                  (lower unicode_lower (strip (ws1 ++ v ++ ws2)))
                = Some {| im_func := paintHelp_m;
                          __doc__ := cls paintHelp_m |}).
  { rewrite Hk, Hc. exact Hg. }
  pose proof (paintHelp_all_documented cls doc
                {| self := self s; transport := transport s;
                   console := console s;
                   trace := trace s ++ [Invoked paintHelp_m];
                   world := world s |} Hc Hdoc) as Hp.
  destruct (lineReceived_hit_ok World ext unicode_lower
              line _ _ s _ Hd Hg' Hp)
    as (s' & Hl & Hh & _ & _ & _ & _ & Ht & Hco & Htr & Hw).
  exists s'. repeat split; assumption.
Qed.

(** X9: when some method has no docstring, a line that says "help" or
    "?" raises [AttributeError] out of the dispatcher: no prompt is
    written and the line is not appended to the history. *)
Theorem help_line_raises_when_a_docstring_is_missing
        cls m tok v ws1 ws2 line (s : state World) :
  __commands (self s) = command_table cls ->
  cls m = None ->
  tok = str "help" \/ tok = str "?" ->
  letter_case_variant v tok ->
  forallb is_space ws1 = true ->
  forallb is_space ws2 = true ->
  decode line = Some (ws1 ++ v ++ ws2) ->
  fst (lineReceived ext unicode_lower line s) =
    Raise (AttributeError missing_docstring) /\
  transport (snd (lineReceived ext unicode_lower line s)) = transport s /\
  self (snd (lineReceived ext unicode_lower line s)) = self s.
Proof.
  intros Hc Hm Htok Hv H1 H2 Hd.
  destruct (help_key_handler cls tok Htok) as [Hin Hg].
  pose proof (padded_variant_key tok v ws1 ws2 Hin Hv H1 H2) as Hk.
  assert (Hg' : getitem (__commands (self s))
                  (lower unicode_lower (strip (ws1 ++ v ++ ws2)))
                = Some {| im_func := paintHelp_m;
                          __doc__ := cls paintHelp_m |}).
  { rewrite Hk, Hc. exact Hg. }
  pose proof (paintHelp_undocumented cls m
                {| self := self s; transport := transport s;
                   console := console s;
                   trace := trace s ++ [Invoked paintHelp_m];
                   world := world s |} Hc Hm) as Hp.
  destruct (invoke ext {| im_func := paintHelp_m;
                          __doc__ := cls paintHelp_m |} s)
    as [r s1] eqn:Hi.
  assert (Hr : r = Raise (AttributeError missing_docstring)).
  { rewrite invoke_is_body in Hi. cbn [im_func body] in Hi.
    rewrite Hi in Hp. exact Hp. }
  subst r.
  destruct (invoke_frame World ext _ s _ _ Hi) as (Hs & Ht & _).
  rewrite (lineReceived_hit_raise World ext unicode_lower
             line _ _ _ s s1 Hd Hg' Hi) by discriminate.
  repeat split; assumption.
Qed.

(** X10: what a line does depends on its key alone: two lines with the
    same key have the same outcome, echoes, calls and prompt; if they
    are accepted, each is appended to the history as it was received. *)
Theorem lines_with_the_same_key_act_alike
        line1 line2 raw1 raw2 (s : state World) :
  decode line1 = Some raw1 ->
  decode line2 = Some raw2 ->
  lower unicode_lower (strip raw1) = lower unicode_lower (strip raw2) ->
  fst (lineReceived ext unicode_lower line1 s) =
    fst (lineReceived ext unicode_lower line2 s) /\
  transport (snd (lineReceived ext unicode_lower line1 s)) =
    transport (snd (lineReceived ext unicode_lower line2 s)) /\
  console (snd (lineReceived ext unicode_lower line1 s)) =
    console (snd (lineReceived ext unicode_lower line2 s)) /\
  trace (snd (lineReceived ext unicode_lower line1 s)) =
    trace (snd (lineReceived ext unicode_lower line2 s)) /\
  world (snd (lineReceived ext unicode_lower line1 s)) =
    world (snd (lineReceived ext unicode_lower line2 s)) /\
  (__history (self (snd (lineReceived ext unicode_lower line1 s))) =
     __history (self s) /\
   __history (self (snd (lineReceived ext unicode_lower line2 s))) =
     __history (self s)
   \/
   __history (self (snd (lineReceived ext unicode_lower line1 s))) =
     deque_append maxlen (__history (self s)) raw1 /\
   __history (self (snd (lineReceived ext unicode_lower line2 s))) =
     deque_append maxlen (__history (self s)) raw2).
Proof.
  intros Hd1 Hd2 Hk.
  destruct (getitem (__commands (self s))
                    (lower unicode_lower (strip raw1))) as [f|] eqn:Hg1.
  - assert (Hg2 := Hg1). rewrite Hk in Hg2.
    destruct (invoke ext f s) as [[[]|e] s1] eqn:Hi.
    + destruct (lineReceived_hit_ok World ext unicode_lower
                  line1 raw1 f s s1 Hd1 Hg1 Hi)
        as (a & -> & Hh & _ & _ & _ & _ & Ht & Hco & Htr & Hw).
      destruct (lineReceived_hit_ok World ext unicode_lower
                  line2 raw2 f s s1 Hd2 Hg2 Hi)
        as (b & -> & Hh' & _ & _ & _ & _ & Ht' & Hco' & Htr' & Hw').
      cbn [fst snd]. repeat split; try congruence. right. auto.
    + destruct (invoke_frame World ext f s _ _ Hi) as (Hs & _).
      destruct e;
        try (rewrite (lineReceived_hit_raise World ext unicode_lower
                        line1 raw1 f _ s s1 Hd1 Hg1 Hi) by discriminate;
             rewrite (lineReceived_hit_raise World ext unicode_lower
                        line2 raw2 f _ s s1 Hd2 Hg2 Hi) by discriminate;
             cbn [fst snd]; repeat split; left; rewrite Hs; auto).
      destruct (lineReceived_hit_KeyError World ext unicode_lower
                  line1 raw1 f s s1 Hd1 Hg1 Hi)
        as (a & -> & Hsa & Ht & Hco & Htr & Hw).
      destruct (lineReceived_hit_KeyError World ext unicode_lower
                  line2 raw2 f s s1 Hd2 Hg2 Hi)
        as (b & -> & Hsb & Ht' & Hco' & Htr' & Hw').
      cbn [fst snd]. rewrite Hk in Hco.
      repeat split; try congruence. left. rewrite Hsa, Hsb. auto.
  - assert (Hg2 := Hg1). rewrite Hk in Hg2.
    destruct (lineReceived_miss World ext unicode_lower
                line1 raw1 s Hd1 Hg1)
      as (a & -> & Hsa & Ht & Hco & Htr & Hw).
    destruct (lineReceived_miss World ext unicode_lower
                line2 raw2 s Hd2 Hg2)
      as (b & -> & Hsb & Ht' & Hco' & Htr' & Hw').
    cbn [fst snd]. rewrite Hk in Hco.
    repeat split; try congruence. left. rewrite Hsa, Hsb. auto.
Qed.

(** X11: a line invokes at most one handler: exactly the one registered
    under its key when there is one, none otherwise. *)
Theorem a_line_invokes_at_most_one_handler line (s : state World) :
  exists evs,
    trace (snd (lineReceived ext unicode_lower line s)) = trace s ++ evs /\
    filter is_invoked evs =
      match decode line with
      | Some raw_line =>
        match getitem (__commands (self s))
                      (lower unicode_lower (strip raw_line)) with
        | Some f => [Invoked (im_func f)]
        | None => []
        end
      | None => []
      end.
Proof.
  destruct (decode line) as [raw_line|] eqn:Hd.
  - destruct (getitem (__commands (self s))
                      (lower unicode_lower (strip raw_line)))
      as [f|] eqn:Hg.
    + destruct (invoke ext f s) as [[[]|e] s1] eqn:Hi;
        destruct (invoke_frame World ext f s _ _ Hi)
          as (_ & _ & _ & (calls & Hcalls & Hn)).
      * destruct (lineReceived_hit_ok World ext unicode_lower
                    line raw_line f s s1 Hd Hg Hi)
          as (s' & -> & _ & _ & _ & _ & _ & _ & _ & Htr & _).
        exists (Invoked (im_func f) :: calls). cbn [snd filter is_invoked].
        rewrite Htr, Hcalls, Hn. auto.
      * exists (Invoked (im_func f) :: calls). cbn [filter is_invoked].
        rewrite Hn. split; [|reflexivity].
        destruct e;
          try (rewrite (lineReceived_hit_raise World ext unicode_lower
                          line raw_line f _ s s1 Hd Hg Hi) by discriminate;
               exact Hcalls).
        destruct (lineReceived_hit_KeyError World ext unicode_lower
                    line raw_line f s s1 Hd Hg Hi)
          as (s' & -> & _ & _ & _ & Htr & _).
        cbn [snd]. rewrite Htr. exact Hcalls.
    + destruct (lineReceived_miss World ext unicode_lower
                  line raw_line s Hd Hg)
        as (s' & -> & _ & _ & _ & Htr & _).
      exists []. cbn [snd]. rewrite Htr, app_nil_r. auto.
  - rewrite (lineReceived_undecodable World ext unicode_lower line s Hd).
    exists []. cbn [snd]. rewrite app_nil_r. auto.
Qed.

End LineProperties.

(** ** Connections and sessions *)

Section SessionProperties.

Variable World : Type.
Variable ext : ext_call -> World -> result pystr * World.
Variable unicode_lower : pystr -> pystr.


Lemma lineReceived_keeps_identity line (s : state World) :
  ursula (self (snd (lineReceived ext unicode_lower line s))) =
    ursula (self s) /\
  start_time (self (snd (lineReceived ext unicode_lower line s))) =
    start_time (self s) /\
  prompt (self (snd (lineReceived ext unicode_lower line s))) =
    prompt (self s) /\
  __commands (self (snd (lineReceived ext unicode_lower line s))) =
    __commands (self s).
Proof.
  destruct (decode line) as [raw_line|] eqn:Hd.
  - destruct (getitem (__commands (self s))
                      (lower unicode_lower (strip raw_line)))
      as [f|] eqn:Hg.
    + destruct (invoke ext f s) as [[[]|e] s1] eqn:Hi.
      * destruct (lineReceived_hit_ok World ext unicode_lower
                    line raw_line f s s1 Hd Hg Hi)
          as (s' & -> & _ & Hp & Hc & Hu & Hst & _).
        cbn [snd]. auto.
      * destruct (invoke_frame World ext f s _ _ Hi) as (Hs & _).
        destruct e;
          try (rewrite (lineReceived_hit_raise World ext unicode_lower
                          line raw_line f _ s s1 Hd Hg Hi) by discriminate;
               cbn [snd]; rewrite Hs; auto).
        destruct (lineReceived_hit_KeyError World ext unicode_lower
                    line raw_line f s s1 Hd Hg Hi)
          as (s' & -> & Hs' & _).
        cbn [snd]. rewrite Hs'. auto.
    + destruct (lineReceived_miss World ext unicode_lower
                  line raw_line s Hd Hg)
        as (s' & -> & Hs' & _).
      cbn [snd]. rewrite Hs'. auto.
  - rewrite (lineReceived_undecodable World ext unicode_lower line s Hd).
    cbn [snd]. auto.
Qed.

(** X13: over a whole session the node, the start time, the prompt and
    the registry of the protocol object never change. *)
Theorem session_keeps_node_prompt_and_registry lines (s : state World) :
  ursula (self (session ext unicode_lower lines s)) = ursula (self s) /\
  start_time (self (session ext unicode_lower lines s)) =
    start_time (self s) /\
  prompt (self (session ext unicode_lower lines s)) = prompt (self s) /\
  __commands (self (session ext unicode_lower lines s)) =
    __commands (self s).
Proof.
  revert s. induction lines as [|l r IH]; intros s; cbn [session].
  - auto.
  - destruct (IH (snd (lineReceived ext unicode_lower l s)))
      as (Hu & Hst & Hp & Hc).
    destruct (lineReceived_keeps_identity l s) as (Hu' & Hst' & Hp' & Hc').
    repeat split; congruence.
Qed.

(** X14: the only thing a session writes to the transport is the
    prompt, once for each line the dispatcher returns from. *)
Theorem session_writes_only_prompts lines (s : state World) :
  transport (session ext unicode_lower lines s) =
    transport s ++
    repeat (prompt (self s)) (completed ext unicode_lower lines s) /\
  (completed ext unicode_lower lines s <= length lines)%nat.
Proof.
  revert s. induction lines as [|l r IH]; intros s;
    cbn [session completed length repeat].
  - rewrite app_nil_r. split; [reflexivity|lia].
  - destruct (IH (snd (lineReceived ext unicode_lower l s))) as [Ht Hn].
    destruct (lineReceived_keeps_identity l s) as (_ & _ & Hp & _).
    pose proof (lineReceived_outcome World ext unicode_lower l s) as Ho.
    rewrite Ht, Hp.
    destruct (lineReceived ext unicode_lower l s) as [[[]|e] s1];
      cbn [fst snd] in *.
    + destruct Ho as (Ho & _). rewrite Ho, <- app_assoc. cbn [repeat app].
      split; [reflexivity|lia].
    + destruct Ho as (Ho & _). rewrite Ho. split; [reflexivity|lia].
Qed.

Lemma Forall_deque_append (P : pystr -> Prop) n d x :
  Forall P d -> P x -> Forall P (deque_append n d x).
Proof.
  intros Hd Hx. unfold deque_append. cbv zeta.
  assert (H : Forall P (d ++ [x])).
  { apply Forall_app. split; [exact Hd|]. constructor; [exact Hx|constructor]. }
  destruct (Nat.ltb n (length (d ++ [x]))); [|exact H].
  destruct (d ++ [x]) as [|a t]; [exact H|].
  cbn [tl]. inversion H. assumption.
Qed.

(** X15: the history only ever holds lines whose key is a registered
    name: no blank line, no unknown command. *)
Theorem history_holds_only_lines_naming_a_command
        cls lines (s : state World) :
  __commands (self s) = command_table cls ->
  Forall (names_a_command unicode_lower) (__history (self s)) ->
  Forall (names_a_command unicode_lower)
         (__history (self (session ext unicode_lower lines s))).
Proof.
  revert s. induction lines as [|l r IH]; intros s Hc Hh; cbn [session].
  - exact Hh.
  - destruct (lineReceived_keeps_identity l s) as (_ & _ & _ & Hc').
    apply IH; [congruence|].
    rewrite lineReceived_history. unfold accepted_line.
    destruct (decode l) as [raw_line|]; [|exact Hh].
    destruct (getitem (__commands (self s))
                      (lower unicode_lower (strip raw_line)))
      as [f|] eqn:Hg; [|exact Hh].
    destruct (fst (invoke ext f s)); [|exact Hh].
    apply Forall_deque_append; [exact Hh|].
    unfold names_a_command. rewrite Hc in Hg.
    apply Registry.getitem_registered in Hg. tauto.
Qed.

End SessionProperties.

(** ** Trimming *)

Lemma lstrip_split s :
  exists ws, s = ws ++ lstrip s /\ forallb is_space ws = true.
Proof.
  induction s as [|c r IH]; cbn [lstrip].
  - exists []. auto.
  - destruct (is_space c) eqn:E.
    + destruct IH as (ws & Hs & Hw). exists (c :: ws). cbn.
      rewrite E, Hw. split; [f_equal; exact Hs|reflexivity].
    + exists []. auto.
Qed.

Lemma lstrip_head_not_space s c r :
  lstrip s = c :: r -> is_space c = false.
Proof.
  induction s as [|a t IH]; cbn [lstrip]; [discriminate|].
  destruct (is_space a) eqn:E; [exact IH|].
  intros H. injection H as <- _. exact E.
Qed.

(** X16: [strip] removes white space from the two ends and nothing
    else: the line is the stripped text between two runs of white
    space, the stripped text neither starts nor ends with white space,
    and stripping it again changes nothing. *)
Theorem strip_trims_both_ends s :
  (exists ws1 ws2,
      s = ws1 ++ strip s ++ ws2 /\
      forallb is_space ws1 = true /\ forallb is_space ws2 = true) /\
  (forall c r, strip s = c :: r -> is_space c = false) /\
  (forall r c, strip s = r ++ [c] -> is_space c = false) /\
  strip (strip s) = strip s.
Proof.
  assert (Hdec : exists ws1 ws2,
             s = ws1 ++ strip s ++ ws2 /\
             forallb is_space ws1 = true /\ forallb is_space ws2 = true).
  { destruct (lstrip_split s) as (ws1 & Hs & H1).
    destruct (lstrip_split (rev (lstrip s))) as (w & Hr & H2).
    exists ws1, (rev w). repeat split.
    - rewrite Hs at 1. f_equal. unfold strip, rstrip.
      rewrite <- rev_app_distr, <- Hr, rev_involutive. reflexivity.
    - exact H1.
    - rewrite StrFacts.forallb_rev. exact H2. }
  assert (Hlast : forall r c, strip s = r ++ [c] -> is_space c = false).
  { intros r c H. unfold strip, rstrip in H.
    apply (f_equal (@rev N)) in H.
    rewrite rev_involutive, rev_app_distr in H. cbn in H.
    exact (lstrip_head_not_space _ _ _ H). }
  assert (Hfirst : forall c r, strip s = c :: r -> is_space c = false).
  { intros c r H. unfold strip, rstrip in H.
    destruct (lstrip s) as [|a t] eqn:El.
    - cbn in H. discriminate H.
    - pose proof (lstrip_head_not_space _ _ _ El) as Ha.
      destruct (lstrip_split (rev (a :: t))) as (w & Hw & _).
      apply (f_equal (@rev N)) in H. rewrite rev_involutive in H.
      rewrite H in Hw.
      apply (f_equal (@rev N)) in Hw.
      rewrite rev_involutive, rev_app_distr, rev_involutive in Hw.
      cbn [app] in Hw. injection Hw as Hac _. congruence. }
  repeat split; try assumption.
  destruct (strip s) as [|c r] eqn:E; [reflexivity|].
  pose proof (Hfirst c r eq_refl) as Hc.
  destruct (@exists_last _ (c :: r) ltac:(discriminate)) as (r' & d & Hr').
  pose proof (Hlast r' d Hr') as Hd.
  unfold strip. rewrite StrFacts.lstrip_head by exact Hc.
  unfold rstrip. rewrite Hr', rev_app_distr. cbn [rev app].
  rewrite StrFacts.lstrip_head by exact Hd.
  change (d :: rev r') with (rev [d] ++ rev r').
  rewrite <- rev_app_distr, rev_involutive. reflexivity.
Qed.

(** ** The fleet-state command *)

Section FleetState.

Variable World : Type.
Variable ext : ext_call -> World -> result pystr * World.
Variable unicode_lower : pystr -> pystr.


End FleetState.

(** ** The further properties at concrete sessions *)

Lemma paintHelp_stops_at_first_undocumented_witness :
  paintHelp_items
    (removelast (command_table Fixture.undocumented_stop) ++
     [(str "stop", {| im_func := stop_m; __doc__ := None |})])
    (Fixture.fresh Fixture.undocumented_stop)
  = (Raise (AttributeError missing_docstring),
     echoed (Fixture.fresh Fixture.undocumented_stop)
       (map entry_of
          (filter listed
             (removelast (command_table Fixture.undocumented_stop))))).
Proof.
  apply (paintHelp_stops_at_first_undocumented unit
           (removelast (command_table Fixture.undocumented_stop))
           (str "stop") {| im_func := stop_m; __doc__ := None |} []
           (Fixture.fresh Fixture.undocumented_stop));
    reflexivity.
Defined.

Lemma control_line_makes_exactly_one_call_witness :
  decode (Fixture.utf8 (str " STOP")) = Some (str " STOP") /\
  trace (snd (lineReceived Fixture.quiet Fixture.no_unicode
                (Fixture.utf8 (str " STOP"))
                (Fixture.fresh UrsulaCommandProtocol_doc)))
  = [Invoked stop_m; Called reactor_stop].
Proof.
  assert (Hd : decode (Fixture.utf8 (str " STOP"))
               = Some (str " " ++ str "STOP" ++ [])) by reflexivity.
  split; [exact Hd|].
  assert (Hv : letter_case_variant (str "STOP") (str "stop")).
  { repeat (apply Forall2_cons; [right; reflexivity|]). apply Forall2_nil. }
  exact (proj1 (control_line_makes_exactly_one_call
                  unit Fixture.quiet Fixture.no_unicode
                  UrsulaCommandProtocol_doc (str "stop")
                  {| im_func := stop_m;
                     __doc__ := UrsulaCommandProtocol_doc stop_m |}
                  reactor_stop (str "STOP") (str " ") []
                  (Fixture.utf8 (str " STOP"))
                  (Fixture.fresh UrsulaCommandProtocol_doc)
                  eq_refl eq_refl eq_refl Hv eq_refl eq_refl Hd)).
Defined.


Lemma help_line_lists_the_commands_witness :
  decode (Fixture.utf8 (str "?")) = Some (str "?") /\
  exists s',
    lineReceived Fixture.quiet Fixture.no_unicode (Fixture.utf8 (str "?"))
                 (Fixture.fresh UrsulaCommandProtocol_doc) = (Ok tt, s') /\
    length (console s') = 9%nat /\
    trace s' = [Invoked paintHelp_m] /\
    __history (self s') = [str "?"].
Proof.
  assert (Hd : decode (Fixture.utf8 (str "?"))
               = Some ([] ++ str "?" ++ [])) by reflexivity.
  split; [exact Hd|].
  assert (Hv : letter_case_variant (str "?") (str "?")).
  { apply Forall2_cons; [left; reflexivity|apply Forall2_nil]. }
  assert (Hdoc : forall m,
             UrsulaCommandProtocol_doc m = Some (Fixture.doc_text m)).
  { intros m. destruct m; reflexivity. }
  destruct (help_line_lists_the_commands
              unit Fixture.quiet Fixture.no_unicode
              UrsulaCommandProtocol_doc Fixture.doc_text (str "?")
              (str "?") [] [] (Fixture.utf8 (str "?"))
              (Fixture.fresh UrsulaCommandProtocol_doc)
              eq_refl Hdoc (or_intror eq_refl) Hv eq_refl eq_refl Hd)
    as (s' & Hl & Hco & Htr & _ & Hh & _).
  exists s'. split; [exact Hl|]. split; [|split].
  - rewrite Hco. reflexivity.
  - exact Htr.
  - exact Hh.
Defined.

Lemma help_line_raises_when_a_docstring_is_missing_witness :
  decode (Fixture.utf8 (str "help")) = Some (str "help") /\
  fst (lineReceived Fixture.quiet Fixture.no_unicode
         (Fixture.utf8 (str "help"))
         (Fixture.fresh Fixture.undocumented_stop))
  = Raise (AttributeError missing_docstring) /\
  transport (snd (lineReceived Fixture.quiet Fixture.no_unicode
                    (Fixture.utf8 (str "help"))
                    (Fixture.fresh Fixture.undocumented_stop))) = [].
Proof.
  assert (Hd : decode (Fixture.utf8 (str "help"))
               = Some ([] ++ str "help" ++ [])) by reflexivity.
  split; [exact Hd|].
  assert (Hv : letter_case_variant (str "help") (str "help")).
  { repeat (apply Forall2_cons; [left; reflexivity|]). apply Forall2_nil. }
  destruct (help_line_raises_when_a_docstring_is_missing
              unit Fixture.quiet Fixture.no_unicode
              Fixture.undocumented_stop stop_m (str "help")
              (str "help") [] [] (Fixture.utf8 (str "help"))
              (Fixture.fresh Fixture.undocumented_stop)
              eq_refl eq_refl (or_introl eq_refl) Hv eq_refl eq_refl Hd)
    as (Hr & Ht & _).
  split; [exact Hr|exact Ht].
Defined.

Lemma lines_with_the_same_key_act_alike_witness :
  decode (Fixture.utf8 (str "help")) = Some (str "help") /\
  decode (Fixture.utf8 (str " HELP ")) = Some (str " HELP ") /\
  console (snd (lineReceived Fixture.quiet Fixture.no_unicode
                  (Fixture.utf8 (str "help"))
                  (Fixture.fresh UrsulaCommandProtocol_doc)))
  = console (snd (lineReceived Fixture.quiet Fixture.no_unicode
                    (Fixture.utf8 (str " HELP "))
                    (Fixture.fresh UrsulaCommandProtocol_doc))).
Proof.
  assert (H1 : decode (Fixture.utf8 (str "help")) = Some (str "help"))
    by reflexivity.
  assert (H2 : decode (Fixture.utf8 (str " HELP ")) = Some (str " HELP "))
    by reflexivity.
  split; [exact H1|]. split; [exact H2|].
  destruct (lines_with_the_same_key_act_alike
              unit Fixture.quiet Fixture.no_unicode
              (Fixture.utf8 (str "help")) (Fixture.utf8 (str " HELP "))
              (str "help") (str " HELP ")
              (Fixture.fresh UrsulaCommandProtocol_doc) H1 H2 eq_refl)
    as (_ & _ & Hco & _).
  exact Hco.
Defined.

Lemma history_holds_only_lines_naming_a_command_witness :
  Forall (names_a_command Fixture.no_unicode)
         (__history
            (self (session Fixture.quiet Fixture.no_unicode
                     (map Fixture.utf8
                        (str "frobnicate" :: str "   " :: Fixture.twelve))
                     (Fixture.fresh UrsulaCommandProtocol_doc)))).
Proof.
  apply (history_holds_only_lines_naming_a_command
           unit Fixture.quiet Fixture.no_unicode UrsulaCommandProtocol_doc).
  - reflexivity.
  - apply Forall_nil.
Defined.
